(** * Well-Known DID Configuration: issuance, assembly and verification

    A shallow embedding of [src/wellKnownDidConfiguration/wellKnownDidConfiguration.ts]
    (functions [createCredential], [getDomainLinkagePresentation], [asyncSome]
    and [verifyDidConfigPresentation]) together with the properties the
    specification states about them.

    The module is glue code over an identity SDK.  The SDK calls it makes
    (DID resolution, DID and URL syntax checks, hashing, signing and signature
    verification) are kept behind the interface [Platform]; every theorem holds for
    all instances of that interface, under the hypotheses it lists. *)

From Stdlib Require Import ZArith String Ascii List Lia.
From stdpp Require Import base decidable option list strings gmap.

Open Scope string_scope.

(** ** Errors and settled promises *)

(** The source throws [new Error(message)] everywhere; the constructors are the
    error taxonomy of the specification (section 7), and the message each
    [throw] carries is quoted where it is raised.  [TypeError] is the error the
    JavaScript runtime raises when a property of [undefined] is read. *)
Inductive Error : Set :=
| InvalidOriginError
| InvalidDidError
| DidResolutionError
| MissingAssertionKeyError
| MalformedClaimError
| DidMismatchError
| IssuerMismatchError
| OriginMismatchError
| SignatureVerificationError
| TypeError.

#[global] Instance Error_eq_dec : EqDecision Error.
Proof. solve_decision. Defined.

(** The state in which the promise returned by an [async] function settles. *)
Inductive Settled (A : Type) : Type :=
| Resolved (a : A)
| Rejected (e : Error).
Arguments Resolved {A} a.
Arguments Rejected {A} e.

#[global] Instance Settled_eq_dec {A : Type} `{EqDecision A} :
  EqDecision (Settled A).
Proof. solve_decision. Defined.

#[global] Instance Settled_ret : MRet Settled := fun A a => Resolved a.
#[global] Instance Settled_bind : MBind Settled := fun A B k m =>
  match m with
  | Resolved a => k a
  | Rejected e => Rejected e
  end.

(** [throw e] *)
Definition throw {A : Type} (e : Error) : Settled A := Rejected e.

Definition is_resolved {A : Type} (p : Settled A) : bool :=
  match p with Resolved _ => true | Rejected _ => false end.

(** ** JavaScript values held by a claim *)

(** [IClaimContents] is a dictionary from property names to primitive values or
    nested objects. *)
Inductive ClaimValue : Type :=
| VString (s : string)
| VNumber (n : Z)
| VBoolean (b : bool)
| VObject.

(** Truthiness of a string: only the empty string is falsy. *)
Definition truthy_string (s : string) : bool :=
  match s with EmptyString => false | String _ _ => true end.

(** Truthiness of a property read [obj.prop]: an absent property reads as
    [undefined], which is falsy. *)
Definition truthy (v : option ClaimValue) : bool :=
  match v with
  | None => false
  | Some (VString s) => truthy_string s
  | Some (VNumber n) => negb (n =? 0)%Z
  | Some (VBoolean b) => b
  | Some VObject => true
  end.

Definition truthy_opt_string (s : option string) : bool :=
  match s with None => false | Some s => truthy_string s end.

(** ** Data model *)

Definition DidUri := string.
Definition DidResourceUri := string.

Module DidKey.
(** [id] is a URI fragment, [`#${string}`]. *)
Record t : Type := mk { id : string; publicKey : string }.
End DidKey.

Module DidDocument.
Record t : Type := mk {
  uri : DidUri;
  assertionMethod : option (list DidKey.t)
}.
End DidDocument.

Module DidResolutionResult.
(** [Did.resolve] yields [null] or an object whose [document] is optional. *)
Record t : Type := mk { document : option DidDocument.t }.
End DidResolutionResult.

Module Claim.
Record t : Type := mk {
  cTypeHash : string;
  contents : gmap string ClaimValue;
  owner : option DidUri
}.
End Claim.

Module ClaimerSignature.
Record t : Type := mk {
  keyUri : DidResourceUri;
  signature : string;
  challenge : option string
}.
End ClaimerSignature.

Module ICredential.
Record t : Type := mk {
  claim : Claim.t;
  claimHashes : list string;
  claimNonceMap : gmap string string;
  legitimations : list string;
  delegationId : option string;
  rootHash : string
}.
End ICredential.

Module ICredentialPresentation.
Record t : Type := mk {
  claim : Claim.t;
  claimHashes : list string;
  claimNonceMap : gmap string string;
  legitimations : list string;
  delegationId : option string;
  rootHash : string;
  claimerSignature : ClaimerSignature.t
}.
End ICredentialPresentation.

Module CredentialSubject.
(** [rootHash] is an optional property: [None] when the object literal does
    not set it. *)
Record t : Type := mk {
  id : DidUri;
  origin : string;
  rootHash : option string
}.
End CredentialSubject.

Module SelfSignedProof.
Record t : Type := mk {
  type : string;
  proofPurpose : string;
  verificationMethod : string;
  signature : string;
  challenge : option string
}.
End SelfSignedProof.

Module DomainLinkageCredential.
Record t : Type := mk {
  context : list string;
  id : string;
  issuer : DidUri;
  issuanceDate : string;
  expirationDate : string;
  type : list string;
  credentialSubject : CredentialSubject.t;
  proof : SelfSignedProof.t
}.
End DomainLinkageCredential.

Module VerifiableDomainLinkagePresentation.
Record t : Type := mk {
  context : string;
  linked_dids : list DomainLinkageCredential.t
}.
End VerifiableDomainLinkagePresentation.

(** ** Constants of the module *)

Definition DEFAULT_VERIFIABLECREDENTIAL_TYPE : string := "VerifiableCredential".
Definition KILT_VERIFIABLECREDENTIAL_TYPE : string := "KiltCredential2020".
Definition KILT_SELF_SIGNED_PROOF_TYPE : string := "KILTSelfSigned2020".
Definition DID_CONFIGURATION_CONTEXT : string :=
  "https://identity.foundation/.well-known/did-configuration/v1".
Definition DID_VC_CONTEXT : string := "https://www.w3.org/2018/credentials/v1".

(** ** The credential id codec *)

(** Modelled from the spec: the constant [KILT_CREDENTIAL_IRI_PREFIX] of the
    package [@kiltprotocol/vc-export] is not part of this repository; the
    credential id is "a URN-style IRI" derived from the root hash. *)
Definition KILT_CREDENTIAL_IRI_PREFIX : string := "kilt:cred:".

(** [strip_prefix p s] is [Some r] when [s = p ++ r], [None] when [p] is not a
    prefix of [s]. *)
Fixpoint strip_prefix (p s : string) : option string :=
  match p with
  | EmptyString => Some s
  | String a p' =>
      match s with
      | EmptyString => None
      | String b s' => if Ascii.eqb a b then strip_prefix p' s' else None
      end
  end.

(** Modelled from the spec: [toCredentialIRI] of [@kiltprotocol/vc-export] is
    not part of this repository.  "Derive a stable credential id by encoding
    the root hash as a URN-style IRI (reversible transform)." *)
Definition toCredentialIRI (rootHash : string) : string :=
  KILT_CREDENTIAL_IRI_PREFIX +:+ rootHash.

(** Modelled from the spec: [fromCredentialIRI] of [@kiltprotocol/vc-export]
    is not part of this repository.  "The inverse extracts the root hash back
    out of an id"; the call site says "Stripping off the prefix to get the
    root hash". *)
Definition fromCredentialIRI (credentialId : string) : string :=
  match strip_prefix KILT_CREDENTIAL_IRI_PREFIX credentialId with
  | Some hexString => hexString
  | None => credentialId
  end.

(** ** The services the module calls *)

Module DidSignature.
(** The [signature] argument of [Did.verifyDidSignature]. *)
Record t : Type := mk { keyUri : DidResourceUri; signature : string }.
End DidSignature.

Module SignRequestData.
Record t : Type := mk {
  data : list Byte.byte;
  did : option DidUri;
  keyRelationship : string
}.
End SignRequestData.

Module SignResponseData.
(** [signature] is kept in the textual form in which it is stored in a
    claimer signature. *)
Record t : Type := mk {
  signature : string;
  keyType : string;
  keyUri : DidResourceUri
}.
End SignResponseData.

(** The signing capability a caller supplies. *)
Definition SignCallback : Type := SignRequestData.t -> SignResponseData.t.

Module HashedClaim.
(** What the hashing primitive derives from a claim. *)
Record t : Type := mk {
  claimHashes : list string;
  claimNonceMap : gmap string string;
  rootHash : string
}.
End HashedClaim.

(** The functions of [@kiltprotocol/sdk-js], [valid-url] and the JavaScript
    runtime that the module calls and that are not part of this repository.
    [Did_validateUri], [validUrl_isUri] and [Did_verifyDidSignature] answer
    [true] where the original returns normally (a truthy value for
    [validUrl.isUri]) and [false] where it throws (returns [undefined]). *)
Class Platform : Type := {
  Did_resolve : DidUri -> option DidResolutionResult.t;
  Did_validateUri : string -> bool;
  Did_verifyDidSignature :
    string (* expectedVerificationMethod *) -> DidSignature.t ->
    list Byte.byte (* message *) -> bool;
  validUrl_isUri : string -> bool;
  Crypto_coToUInt8 : string -> list Byte.byte;
  Credential_hashClaim : Claim.t -> HashedClaim.t;
  Date_toISOString : Z -> string
}.

(** The clock of one call: [clock k] is the time, in milliseconds since the
    epoch, that the [k]-th reading of the clock during the call returns
    ([Date.now()] and [new Date()] each read it once). *)
Definition Clock : Type := nat -> Z.

Module CType.
Record t : Type := mk {
  title : string;
  properties : list (string * string);
  hash : string
}.
End CType.

(** [CType.fromSchema] derives the schema hash; the value is the one the
    integration test expects as [cTypeHash]. *)
Definition ctypeDomainLinkage : CType.t :=
  {| CType.title := "Domain Linkage Credential";
     CType.properties := [("origin", "string")];
     CType.hash :=
       "0x39dc47bc933944ac66cfcf46bfdb66ca070b04a17cd8818eefb669928caf4d3e" |}.

(** Modelled from the spec: [Claim.fromCTypeAndClaimContents] of the SDK is
    not part of this repository.  "Produces claim contents { origin } scoped
    to a fixed content-type schema and the resolved DID as owner." *)
Definition Claim_fromCTypeAndClaimContents
    (ctype : CType.t) (claimContents : gmap string ClaimValue)
    (claimOwner : DidUri) : Claim.t :=
  {| Claim.cTypeHash := CType.hash ctype;
     Claim.contents := claimContents;
     Claim.owner := Some claimOwner |}.

Section WellKnownDidConfiguration.
Context `{Platform}.

(** Modelled from the spec: [Credential.fromClaim] of the SDK is not part of
    this repository.  "Credential: Claim + content hashes + a nonce mapping
    + root hash + optional delegation id + legitimations list (both
    empty/null in this flow)"; the hashes are "delegated to the external
    hashing primitive". *)
Definition Credential_fromClaim (claim : Claim.t) : ICredential.t :=
  let hashed := Credential_hashClaim claim in
  {| ICredential.claim := claim;
     ICredential.claimHashes := HashedClaim.claimHashes hashed;
     ICredential.claimNonceMap := HashedClaim.claimNonceMap hashed;
     ICredential.legitimations := [];
     ICredential.delegationId := None;
     ICredential.rootHash := HashedClaim.rootHash hashed |}.

(** Modelled from the spec: [Credential.createPresentation] of the SDK is
    not part of this repository.  "Invoke the signing capability over the
    credential's signable payload (root hash bytes) to obtain a signature;
    attach as claimer signature"; the capability "returns
    {signature, keyType, keyUri}" and no challenge is passed. *)
Definition Credential_createPresentation
    (credential : ICredential.t) (signCallback : SignCallback)
    : ICredentialPresentation.t :=
  let response :=
    signCallback
      {| SignRequestData.data :=
           Crypto_coToUInt8 (ICredential.rootHash credential);
         SignRequestData.did := Claim.owner (ICredential.claim credential);
         SignRequestData.keyRelationship := "authentication" |} in
  {| ICredentialPresentation.claim := ICredential.claim credential;
     ICredentialPresentation.claimHashes := ICredential.claimHashes credential;
     ICredentialPresentation.claimNonceMap :=
       ICredential.claimNonceMap credential;
     ICredentialPresentation.legitimations :=
       ICredential.legitimations credential;
     ICredentialPresentation.delegationId :=
       ICredential.delegationId credential;
     ICredentialPresentation.rootHash := ICredential.rootHash credential;
     ICredentialPresentation.claimerSignature :=
       {| ClaimerSignature.keyUri := SignResponseData.keyUri response;
          ClaimerSignature.signature := SignResponseData.signature response;
          ClaimerSignature.challenge := None |} |}.

(** *** [createCredential] *)

Definition createCredential
    (signCallback : SignCallback) (origin : string) (didUri : DidUri)
    : Settled ICredentialPresentation.t :=
  let fullDid := Did_resolve didUri in
  match fullDid ≫= DidResolutionResult.document with
  | None =>
      (* 'No Did found: Please create a Full DID' *)
      throw DidResolutionError
  | Some document =>
      if negb (validUrl_isUri origin) then
        (* 'The origin is not a valid url' *)
        throw InvalidOriginError
      else
        let domainClaimContents : gmap string ClaimValue :=
          {[ "origin" := VString origin ]} in
        let claim :=
          Claim_fromCTypeAndClaimContents
            ctypeDomainLinkage domainClaimContents
            (DidDocument.uri document) in
        let credential := Credential_fromClaim claim in
        let assertionKey :=
          DidDocument.assertionMethod document ≫= (fun keys => keys !! 0%nat) in
        match assertionKey with
        | None =>
            (* 'Full DID doesnt have assertion key: Please add assertion key' *)
            throw MissingAssertionKeyError
        | Some _ =>
            Resolved (Credential_createPresentation credential signCallback)
        end
  end.

(** *** [getDomainLinkagePresentation] *)

(** [Did.validateUri(credential.claim.owner)]: an owner that is not set is
    not a DID. *)
Definition validateOwner (claimOwner : option DidUri) : Settled DidUri :=
  match claimOwner with
  | None => throw InvalidDidError
  | Some did =>
      if Did_validateUri did then Resolved did else throw InvalidDidError
  end.

(** The optional parameter [expirationDate] is [None] when the caller omits
    it; its default initialiser reads the clock on entry.  The second
    component counts the clock readings made so far. *)
Definition defaultExpirationDate
    (clock : Clock) (expirationDate : option string) : string * nat :=
  match expirationDate with
  | Some date => (date, 0%nat)
  | None =>
      (Date_toISOString (clock 0%nat + 1000 * 60 * 60 * 24 * 365 * 5), 1%nat)
  end.

Definition getDomainLinkagePresentation
    (clock : Clock) (credential : ICredentialPresentation.t)
    (expirationDate : option string)
    : Settled VerifiableDomainLinkagePresentation.t :=
  let '(expirationDate, reads) := defaultExpirationDate clock expirationDate in
  let claimContents :=
    Claim.contents (ICredentialPresentation.claim credential) in
  let claimOwner := Claim.owner (ICredentialPresentation.claim credential) in
  if negb (truthy_opt_string claimOwner)
     && negb (truthy (claimContents !! "origin")) then
    (* 'Claim do not content an owner or origin' *)
    throw MalformedClaimError
  else
    didUri ← validateOwner claimOwner;
    match claimContents !! "origin" with
    | Some (VString claimOrigin) =>
        if negb (validUrl_isUri claimOrigin) then
          (* 'The claim contents origin is not a valid url' *)
          throw InvalidOriginError
        else
          let origin := claimOrigin in
          let credentialSubject :=
            {| CredentialSubject.id := didUri;
               CredentialSubject.origin := origin;
               CredentialSubject.rootHash := None |} in
          let issuanceDate := Date_toISOString (clock reads) in
          let claimerSignature :=
            ICredentialPresentation.claimerSignature credential in
          let rootHash := ICredentialPresentation.rootHash credential in
          let id := toCredentialIRI (ICredentialPresentation.rootHash credential) in
          if negb (Did_verifyDidSignature "assertionMethod"
                     {| DidSignature.keyUri :=
                          ClaimerSignature.keyUri claimerSignature;
                        DidSignature.signature :=
                          ClaimerSignature.signature claimerSignature |}
                     (Crypto_coToUInt8 rootHash)) then
            throw SignatureVerificationError
          else
            let proof :=
              {| SelfSignedProof.type := KILT_SELF_SIGNED_PROOF_TYPE;
                 SelfSignedProof.proofPurpose := "assertionMethod";
                 SelfSignedProof.verificationMethod :=
                   ClaimerSignature.keyUri claimerSignature;
                 SelfSignedProof.signature :=
                   ClaimerSignature.signature claimerSignature;
                 SelfSignedProof.challenge :=
                   ClaimerSignature.challenge claimerSignature |} in
            Resolved
              {| VerifiableDomainLinkagePresentation.context :=
                   DID_CONFIGURATION_CONTEXT;
                 VerifiableDomainLinkagePresentation.linked_dids :=
                   [ {| DomainLinkageCredential.context :=
                          [ "https://www.w3.org/2018/credentials/v1";
                            DID_CONFIGURATION_CONTEXT ];
                        DomainLinkageCredential.id := id;
                        DomainLinkageCredential.issuer := didUri;
                        DomainLinkageCredential.issuanceDate := issuanceDate;
                        DomainLinkageCredential.expirationDate := expirationDate;
                        DomainLinkageCredential.type :=
                          [ DEFAULT_VERIFIABLECREDENTIAL_TYPE;
                            "DomainLinkageCredential";
                            KILT_VERIFIABLECREDENTIAL_TYPE ];
                        DomainLinkageCredential.credentialSubject :=
                          credentialSubject;
                        DomainLinkageCredential.proof := proof |} ] |}
    | _ =>
        (* 'claim contents id is not a string' *)
        throw InvalidOriginError
    end.

(** *** [Promise.all] and [asyncSome] *)

(** The reasons of the rejected promises of an array, in array order. *)
Definition rejections {A : Type} (promises : list (Settled A)) : list Error :=
  omap (fun p => match p with Rejected e => Some e | Resolved _ => None end)
       promises.

(** The values of the fulfilled promises of an array, in array order. *)
Definition fulfilments {A : Type} (promises : list (Settled A)) : list A :=
  omap (fun p => match p with Resolved a => Some a | Rejected _ => None end)
       promises.

(** [Promise.all(promises)]: fulfilled with all the values when no promise
    is rejected, and otherwise rejected with the reason of the promise that
    is rejected first.  Which promise that is depends on when each one
    settles, so the result is a list: it holds the one fulfilment, or one
    rejection per rejected promise, and whatever settlement is observed is a
    member of it. *)
Definition Promise_all {A : Type} (promises : list (Settled A))
    : list (Settled (list A)) :=
  match rejections promises with
  | [] => [Resolved (fulfilments promises)]
  | reasons => map Rejected reasons
  end.

(** [await Promise.all(credentials.map((credential) => verify(credential)))];
    the array of values is discarded. *)
Definition asyncSome
    (credentials : list DomainLinkageCredential.t)
    (verify : DomainLinkageCredential.t -> Settled unit)
    : list (Settled unit) :=
  map (fun all : Settled (list unit) => _ ← all; Resolved tt)
      (Promise_all (map verify credentials)).

(** *** [verifyDidConfigPresentation] *)

(** [!document?.assertionMethod?.[0].id]: the optional chain guards an
    absent [assertionMethod] only; reading [.id] of an absent first element
    raises a [TypeError]. *)
Definition firstAssertionKeyId (document : DidDocument.t)
    : Settled (option string) :=
  match DidDocument.assertionMethod document with
  | None => Resolved None
  | Some keys =>
      match keys !! 0%nat with
      | None => throw TypeError
      | Some key => Resolved (Some (DidKey.id key))
      end
  end.

(** The callback [verifyDidConfigPresentation] passes to [asyncSome]. *)
Definition verifyCredential
    (didUri : DidUri) (origin : string)
    (credential : DomainLinkageCredential.t) : Settled unit :=
  let issuer := DomainLinkageCredential.issuer credential in
  let credentialSubject := DomainLinkageCredential.credentialSubject credential in
  let id := DomainLinkageCredential.id credential in
  let matchesSessionDid := String.eqb didUri (CredentialSubject.id credentialSubject) in
  if negb matchesSessionDid then
    (* 'session did doesnt match' *)
    throw DidMismatchError
  else if negb (Did_validateUri (CredentialSubject.id credentialSubject)) then
    throw InvalidDidError
  else
    let matchesIssuer := String.eqb issuer (CredentialSubject.id credentialSubject) in
    if negb matchesIssuer then
      (* 'does not match the issuer' *)
      throw IssuerMismatchError
    else
      let matchesOrigin :=
        String.eqb origin (CredentialSubject.origin credentialSubject) in
      if negb matchesOrigin then
        (* 'does not match the origin' *)
        throw OriginMismatchError
      else if negb (validUrl_isUri origin) then
        (* 'not a valid uri' *)
        throw InvalidOriginError
      else
        let fullDid := Did_resolve didUri in
        match fullDid ≫= DidResolutionResult.document with
        | None =>
            (* 'No Did found: Please create a Full DID' *)
            throw DidResolutionError
        | Some document =>
            keyId ← firstAssertionKeyId document;
            if negb (truthy_opt_string keyId) then
              (* 'No DID attestation key on-chain' *)
              throw MissingAssertionKeyError
            else
              (* Stripping off the prefix to get the root hash *)
              let rootHash := fromCredentialIRI id in
              if negb (Did_verifyDidSignature "assertionMethod"
                         {| DidSignature.keyUri :=
                              SelfSignedProof.verificationMethod
                                (DomainLinkageCredential.proof credential);
                            DidSignature.signature :=
                              SelfSignedProof.signature
                                (DomainLinkageCredential.proof credential) |}
                         (Crypto_coToUInt8 rootHash)) then
                throw SignatureVerificationError
              else
                Resolved tt
        end.

(** The settlements of the promise [verifyDidConfigPresentation] returns,
    as a list that holds whichever one is observed (see [Promise_all]). *)
Definition verifyDidConfigPresentation
    (didUri : DidUri)
    (domainLinkageCredential : VerifiableDomainLinkagePresentation.t)
    (origin : string) : list (Settled unit) :=
  asyncSome
    (VerifiableDomainLinkagePresentation.linked_dids domainLinkageCredential)
    (verifyCredential didUri origin).

(** *** Contracts of the inputs *)

(** [didUri] is a syntactically valid DID and resolves to its own document. *)
Definition resolvesTo (didUri : DidUri) (document : DidDocument.t) : Prop :=
  Did_resolve didUri ≫= DidResolutionResult.document = Some document
  /\ DidDocument.uri document = didUri
  /\ Did_validateUri didUri = true
  /\ truthy_string didUri = true.

(** The document exposes at least one assertion-method key; the id of a key is
    a fragment [`#${string}`], hence not empty. *)
Definition exposesAssertionKey (document : DidDocument.t) : Prop :=
  exists key keys,
    DidDocument.assertionMethod document = Some (key :: keys)
    /\ truthy_string (DidKey.id key) = true.

(** The signing capability is bound to an assertion-method key: what it
    returns for a payload is accepted by the verification primitive as an
    [assertionMethod] signature of that payload. *)
Definition boundToAssertionKey (signCallback : SignCallback) : Prop :=
  forall request : SignRequestData.t,
    Did_verifyDidSignature "assertionMethod"
      {| DidSignature.keyUri := SignResponseData.keyUri (signCallback request);
         DidSignature.signature :=
           SignResponseData.signature (signCallback request) |}
      (SignRequestData.data request)
    = true.

(** An entry that passes the five checks made before the DID is resolved. *)
Definition passesEntryChecks
    (didUri : DidUri) (origin : string)
    (credential : DomainLinkageCredential.t) : Prop :=
  let credentialSubject := DomainLinkageCredential.credentialSubject credential in
  CredentialSubject.id credentialSubject = didUri
  /\ Did_validateUri didUri = true
  /\ DomainLinkageCredential.issuer credential = didUri
  /\ CredentialSubject.origin credentialSubject = origin
  /\ validUrl_isUri origin = true.

End WellKnownDidConfiguration.

(** ** Test utilities and in-place updates ([src/tests/utils.ts]) *)

(** A signing capability as [assertionSigner] builds it: the call of the
    callback can itself throw. *)
Definition FallibleSignCallback : Type :=
  SignRequestData.t -> Settled SignResponseData.t.

(** [assertionSigner({ assertion, didDocument })], with [sign] standing for
    [assertion.sign].  [!assertionMethod] is true only for an absent property
    (an empty array is truthy); [assertionMethod[0].id] is evaluated when the
    callback is called. *)
Definition assertionSigner
    (sign : list Byte.byte -> string) (didDocument : DidDocument.t)
    : Settled FallibleSignCallback :=
  match DidDocument.assertionMethod didDocument with
  | None =>
      (* 'no assertionMethod' *)
      throw MissingAssertionKeyError
  | Some assertionMethod =>
      Resolved (fun request =>
        match assertionMethod !! 0%nat with
        | None => throw TypeError
        | Some key =>
            Resolved
              {| SignResponseData.signature := sign (SignRequestData.data request);
                 SignResponseData.keyType := "sr25519";
                 SignResponseData.keyUri :=
                   DidDocument.uri didDocument +:+ DidKey.id key |}
        end)
  end.

(** [credential.claimerSignature.signature = signature], as the integration
    test does before it assembles again. *)
Definition setClaimerSignature
    (signature : string) (credential : ICredentialPresentation.t)
    : ICredentialPresentation.t :=
  {| ICredentialPresentation.claim := ICredentialPresentation.claim credential;
     ICredentialPresentation.claimHashes :=
       ICredentialPresentation.claimHashes credential;
     ICredentialPresentation.claimNonceMap :=
       ICredentialPresentation.claimNonceMap credential;
     ICredentialPresentation.legitimations :=
       ICredentialPresentation.legitimations credential;
     ICredentialPresentation.delegationId :=
       ICredentialPresentation.delegationId credential;
     ICredentialPresentation.rootHash :=
       ICredentialPresentation.rootHash credential;
     ICredentialPresentation.claimerSignature :=
       {| ClaimerSignature.keyUri :=
            ClaimerSignature.keyUri
              (ICredentialPresentation.claimerSignature credential);
          ClaimerSignature.signature := signature;
          ClaimerSignature.challenge :=
            ClaimerSignature.challenge
              (ICredentialPresentation.claimerSignature credential) |} |}.

(** [credential.proof.signature = signature] on a linked credential. *)
Definition setProofSignature
    (signature : string) (credential : DomainLinkageCredential.t)
    : DomainLinkageCredential.t :=
  {| DomainLinkageCredential.context := DomainLinkageCredential.context credential;
     DomainLinkageCredential.id := DomainLinkageCredential.id credential;
     DomainLinkageCredential.issuer := DomainLinkageCredential.issuer credential;
     DomainLinkageCredential.issuanceDate :=
       DomainLinkageCredential.issuanceDate credential;
     DomainLinkageCredential.expirationDate :=
       DomainLinkageCredential.expirationDate credential;
     DomainLinkageCredential.type := DomainLinkageCredential.type credential;
     DomainLinkageCredential.credentialSubject :=
       DomainLinkageCredential.credentialSubject credential;
     DomainLinkageCredential.proof :=
       {| SelfSignedProof.type :=
            SelfSignedProof.type (DomainLinkageCredential.proof credential);
          SelfSignedProof.proofPurpose :=
            SelfSignedProof.proofPurpose (DomainLinkageCredential.proof credential);
          SelfSignedProof.verificationMethod :=
            SelfSignedProof.verificationMethod
              (DomainLinkageCredential.proof credential);
          SelfSignedProof.signature := signature;
          SelfSignedProof.challenge :=
            SelfSignedProof.challenge (DomainLinkageCredential.proof credential) |} |}.

(** ** A concrete platform

    A small instance of [Platform] on which the functions can be run: three
    registered DIDs, a URL check that accepts [http://] and [https://]
    prefixes, and a signature scheme in which the assertion key of a DID signs
    a payload by tagging it.  It is used to evaluate the functions on concrete
    inputs. *)
Module Demo.

Definition alice : DidUri :=
  "did:kilt:4tDjyLy2gESkLzvaLnpbn7N61VgnwAhqnTHsPPFAwaZjGwP2".
Definition bob : DidUri :=
  "did:kilt:4pehddkhEanexVTTzWAtrrfo2R7xPnePpuiJLC7shQU894aY".
Definition carol : DidUri :=
  "did:kilt:4qBpYb7MasFsaEfS1GzjM2Yk5sQbh3VfeqPsyeRh7kQ1sGx9".

Definition aliceKey : DidKey.t :=
  {| DidKey.id := "#0xf5c1b5c4b4b2e2b5cbb77a2d1e2f33a2";
     DidKey.publicKey := "0x7a61a1c0" |}.

Definition aliceDocument : DidDocument.t :=
  {| DidDocument.uri := alice; DidDocument.assertionMethod := Some [aliceKey] |}.
(** [bob]'s document lists no assertion key. *)
Definition bobDocument : DidDocument.t :=
  {| DidDocument.uri := bob; DidDocument.assertionMethod := Some [] |}.
(** [carol]'s document has no [assertionMethod] property. *)
Definition carolDocument : DidDocument.t :=
  {| DidDocument.uri := carol; DidDocument.assertionMethod := None |}.

Definition resolve (did : DidUri) : option DidResolutionResult.t :=
  if String.eqb did alice then
    Some {| DidResolutionResult.document := Some aliceDocument |}
  else if String.eqb did bob then
    Some {| DidResolutionResult.document := Some bobDocument |}
  else if String.eqb did carol then
    Some {| DidResolutionResult.document := Some carolDocument |}
  else None.

(** [did:kilt:] followed by a 48 character address that starts with [4]. *)
Definition validateUri (input : string) : bool :=
  match strip_prefix "did:kilt:4" input with
  | Some rest => Nat.eqb (String.length rest) 47
  | None => false
  end.

Definition isUri (value : string) : bool :=
  match strip_prefix "http://" value, strip_prefix "https://" value with
  | Some rest, _ | None, Some rest => truthy_string rest
  | None, None => false
  end.

Definition coToUInt8 (input : string) : list Byte.byte :=
  list_byte_of_string input.

Definition tag (message : list Byte.byte) : string :=
  "signed:" +:+ string_of_list_byte message.

(** A signature is accepted when it is the tag of the message, made by
    [alice]'s assertion key, and an assertion key is what is expected. *)
Definition verifyDidSignature
    (expectedVerificationMethod : string) (signature : DidSignature.t)
    (message : list Byte.byte) : bool :=
  String.eqb expectedVerificationMethod "assertionMethod"
  && String.eqb (DidSignature.keyUri signature) (alice +:+ DidKey.id aliceKey)
  && String.eqb (DidSignature.signature signature) (tag message).

Definition hashClaim (claim : Claim.t) : HashedClaim.t :=
  {| HashedClaim.claimHashes :=
       ["0x2192b61d3f3109920e8991952a3fad9b7158e4fc8aa2a2fa5f3a5b5de3e1f6c1"];
     HashedClaim.claimNonceMap := ∅;
     HashedClaim.rootHash :=
       "0x1f3a1f0c2eb5a3b2f6bd8d7b7b7d0c6a3f5c0f6f0b1e9f3c6f1d1b2e3c4d5e6f" |}.

(** Days since 1970-01-01 to a civil date (year, month, day). *)
Definition civil_from_days (days : Z) : Z * Z * Z :=
  let z := (days + 719468)%Z in
  let era := (z / 146097)%Z in
  let doe := (z - era * 146097)%Z in
  let yoe := ((doe - doe / 1460 + doe / 36524 - doe / 146096) / 365)%Z in
  let doy := (doe - (365 * yoe + yoe / 4 - yoe / 100))%Z in
  let mp := ((5 * doy + 2) / 153)%Z in
  let d := (doy - (153 * mp + 2) / 5 + 1)%Z in
  let m := (if (mp <? 10)%Z then mp + 3 else mp - 9)%Z in
  let y := (yoe + era * 400 + (if (m <=? 2)%Z then 1 else 0))%Z in
  (y, m, d).

Definition digit (n : Z) : string :=
  String (ascii_of_nat (48 + Z.to_nat (n mod 10))) EmptyString.

Fixpoint digits (width : nat) (n : Z) : string :=
  match width with
  | O => EmptyString
  | S w => digits w (n / 10) +:+ digit n
  end.

(** [new Date(ms).toISOString()] for the years 0000 to 9999. *)
Definition toISOString (ms : Z) : string :=
  let '(y, m, d) := civil_from_days (ms / 86400000) in
  let t := (ms mod 86400000)%Z in
  digits 4 y +:+ "-" +:+ digits 2 m +:+ "-" +:+ digits 2 d +:+ "T"
  +:+ digits 2 (t / 3600000) +:+ ":" +:+ digits 2 (t / 60000 mod 60) +:+ ":"
  +:+ digits 2 (t / 1000 mod 60) +:+ "." +:+ digits 3 (t mod 1000) +:+ "Z".

Definition platform : Platform :=
  {| Did_resolve := resolve;
     Did_validateUri := validateUri;
     Did_verifyDidSignature := verifyDidSignature;
     validUrl_isUri := isUri;
     Crypto_coToUInt8 := coToUInt8;
     Credential_hashClaim := hashClaim;
     Date_toISOString := toISOString |}.

(** The signing capability bound to [alice]'s assertion key. *)
Definition assertionSigner : SignCallback := fun request =>
  {| SignResponseData.signature := tag (SignRequestData.data request);
     SignResponseData.keyType := "sr25519";
     SignResponseData.keyUri := alice +:+ DidKey.id aliceKey |}.

Definition origin : string := "http://localhost:3927".

(** A clock that stands still at 2026-11-02T00:00:00.000Z. *)
Definition frozen : Clock := fun _ => 1793577600000%Z.
(** A clock that advances by one millisecond at every reading. *)
Definition ticking : Clock := fun k => (1793577600000 + Z.of_nat k)%Z.

(** The presentation [createCredential] issues for [alice] and [origin]. *)
Definition credential : ICredentialPresentation.t :=
  {| ICredentialPresentation.claim :=
       {| Claim.cTypeHash := CType.hash ctypeDomainLinkage;
          Claim.contents := {[ "origin" := VString origin ]};
          Claim.owner := Some alice |};
     ICredentialPresentation.claimHashes :=
       ["0x2192b61d3f3109920e8991952a3fad9b7158e4fc8aa2a2fa5f3a5b5de3e1f6c1"];
     ICredentialPresentation.claimNonceMap := ∅;
     ICredentialPresentation.legitimations := [];
     ICredentialPresentation.delegationId := None;
     ICredentialPresentation.rootHash :=
       "0x1f3a1f0c2eb5a3b2f6bd8d7b7b7d0c6a3f5c0f6f0b1e9f3c6f1d1b2e3c4d5e6f";
     ICredentialPresentation.claimerSignature :=
       {| ClaimerSignature.keyUri := alice +:+ DidKey.id aliceKey;
          ClaimerSignature.signature :=
            "signed:0x1f3a1f0c2eb5a3b2f6bd8d7b7b7d0c6a3f5c0f6f0b1e9f3c6f1d1b2e3c4d5e6f";
          ClaimerSignature.challenge := None |} |}.

Definition withClaim (claim : Claim.t) (presentation : ICredentialPresentation.t)
    : ICredentialPresentation.t :=
  {| ICredentialPresentation.claim := claim;
     ICredentialPresentation.claimHashes :=
       ICredentialPresentation.claimHashes presentation;
     ICredentialPresentation.claimNonceMap :=
       ICredentialPresentation.claimNonceMap presentation;
     ICredentialPresentation.legitimations :=
       ICredentialPresentation.legitimations presentation;
     ICredentialPresentation.delegationId :=
       ICredentialPresentation.delegationId presentation;
     ICredentialPresentation.rootHash :=
       ICredentialPresentation.rootHash presentation;
     ICredentialPresentation.claimerSignature :=
       ICredentialPresentation.claimerSignature presentation |}.

(** [credential] with a claim whose contents are empty: the owner is set,
    [origin] is missing. *)
Definition credentialWithoutOrigin : ICredentialPresentation.t :=
  withClaim
    {| Claim.cTypeHash := CType.hash ctypeDomainLinkage;
       Claim.contents := ∅;
       Claim.owner := Some alice |}
    credential.

(** [credential] with a claim whose owner is not set: [origin] is present. *)
Definition credentialWithoutOwner : ICredentialPresentation.t :=
  withClaim
    {| Claim.cTypeHash := CType.hash ctypeDomainLinkage;
       Claim.contents := {[ "origin" := VString origin ]};
       Claim.owner := None |}
    credential.

(** A linked credential about [subject], issued by [issuer], with the proof
    and the id of the envelope assembled from [credential]. *)
Definition linked (subject issuer : DidUri) : DomainLinkageCredential.t :=
  {| DomainLinkageCredential.context :=
       [DID_VC_CONTEXT; DID_CONFIGURATION_CONTEXT];
     DomainLinkageCredential.id :=
       toCredentialIRI (ICredentialPresentation.rootHash credential);
     DomainLinkageCredential.issuer := issuer;
     DomainLinkageCredential.issuanceDate := "2026-11-02T00:00:00.000Z";
     DomainLinkageCredential.expirationDate := "2031-11-01T00:00:00.000Z";
     DomainLinkageCredential.type :=
       [ DEFAULT_VERIFIABLECREDENTIAL_TYPE; "DomainLinkageCredential";
         KILT_VERIFIABLECREDENTIAL_TYPE ];
     DomainLinkageCredential.credentialSubject :=
       {| CredentialSubject.id := subject;
          CredentialSubject.origin := origin;
          CredentialSubject.rootHash := None |};
     DomainLinkageCredential.proof :=
       {| SelfSignedProof.type := KILT_SELF_SIGNED_PROOF_TYPE;
          SelfSignedProof.proofPurpose := "assertionMethod";
          SelfSignedProof.verificationMethod := alice +:+ DidKey.id aliceKey;
          SelfSignedProof.signature :=
            ClaimerSignature.signature
              (ICredentialPresentation.claimerSignature credential);
          SelfSignedProof.challenge := None |} |}.

Definition envelope (entries : list DomainLinkageCredential.t)
    : VerifiableDomainLinkagePresentation.t :=
  {| VerifiableDomainLinkagePresentation.context := DID_CONFIGURATION_CONTEXT;
     VerifiableDomainLinkagePresentation.linked_dids := entries |}.

(** The first linked credential of the envelope a call produced, if any. *)
Definition firstLinked (result : Settled VerifiableDomainLinkagePresentation.t)
    : option DomainLinkageCredential.t :=
  match result with
  | Resolved presentation =>
      head (VerifiableDomainLinkagePresentation.linked_dids presentation)
  | Rejected _ => None
  end.

(** [assertion.sign] of [alice]'s assertion key pair. *)
Definition sign (data : list Byte.byte) : string := tag data.

(** A linked credential about [alice] that differs from [linked alice alice]
    in the dates, the contexts, the types and the proof's type and purpose:
    it expired in 2001. *)
Definition expired : DomainLinkageCredential.t :=
  {| DomainLinkageCredential.context := [];
     DomainLinkageCredential.id :=
       toCredentialIRI (ICredentialPresentation.rootHash credential);
     DomainLinkageCredential.issuer := alice;
     DomainLinkageCredential.issuanceDate := "1996-01-01T00:00:00.000Z";
     DomainLinkageCredential.expirationDate := "2001-01-01T00:00:00.000Z";
     DomainLinkageCredential.type := ["SomethingElse"];
     DomainLinkageCredential.credentialSubject :=
       {| CredentialSubject.id := alice;
          CredentialSubject.origin := origin;
          CredentialSubject.rootHash := Some "0x00" |};
     DomainLinkageCredential.proof :=
       {| SelfSignedProof.type := "Ed25519Signature2018";
          SelfSignedProof.proofPurpose := "authentication";
          SelfSignedProof.verificationMethod := alice +:+ DidKey.id aliceKey;
          SelfSignedProof.signature :=
            ClaimerSignature.signature
              (ICredentialPresentation.claimerSignature credential);
          SelfSignedProof.challenge := Some "0x1234" |} |}.

(** [credential] with another schema hash, other claim hashes, a delegation
    and a legitimation. *)
Definition otherSchema : ICredentialPresentation.t :=
  {| ICredentialPresentation.claim :=
       {| Claim.cTypeHash := "0x00";
          Claim.contents :=
            <[ "extra" := VNumber 7 ]> {[ "origin" := VString origin ]};
          Claim.owner := Some alice |};
     ICredentialPresentation.claimHashes := [];
     ICredentialPresentation.claimNonceMap := {[ "0x01" := "nonce" ]};
     ICredentialPresentation.legitimations := ["0x02"];
     ICredentialPresentation.delegationId := Some "0x03";
     ICredentialPresentation.rootHash :=
       ICredentialPresentation.rootHash credential;
     ICredentialPresentation.claimerSignature :=
       ICredentialPresentation.claimerSignature credential |}.

(** [alice]'s DID followed by the fragment of her assertion key. *)
Definition aliceKeyUri : DidUri := alice +:+ DidKey.id aliceKey.

(** A platform that differs from [platform] in the resolver only: it returns
    [alice]'s document for [aliceKeyUri] as well. *)

Definition resolveCanonical (did : DidUri) : option DidResolutionResult.t :=
  if String.eqb did aliceKeyUri then
    Some {| DidResolutionResult.document := Some aliceDocument |}
  else resolve did.

Definition canonicalising : Platform :=
  {| Did_resolve := resolveCanonical;
     Did_validateUri := validateUri;
     Did_verifyDidSignature := verifyDidSignature;
     validUrl_isUri := isUri;
     Crypto_coToUInt8 := coToUInt8;
     Credential_hashClaim := hashClaim;
     Date_toISOString := toISOString |}.

(** A signing capability that is not bound to any key. *)
Definition unboundSigner : SignCallback := fun request =>
  {| SignResponseData.signature := "0x";
     SignResponseData.keyType := "sr25519";
     SignResponseData.keyUri := alice +:+ DidKey.id aliceKey |}.

End Demo.

(** * Properties *)

(** ** The credential id codec *)

Lemma strip_prefix_app (p s : string) : strip_prefix p (p +:+ s) = Some s.
Proof.
  induction p as [|a p IH]; simpl; [reflexivity|].
  rewrite Ascii.eqb_refl. exact IH.
Qed.

Lemma fromCredentialIRI_toCredentialIRI (rootHash : string) :
  fromCredentialIRI (toCredentialIRI rootHash) = rootHash.
Proof.
  unfold fromCredentialIRI, toCredentialIRI.
  now rewrite strip_prefix_app.
Qed.

(** ** [Promise.all] *)

Lemma rejections_nil_iff {A : Type} (promises : list (Settled A)) :
  rejections promises = [] <-> Forall (fun p => is_resolved p = true) promises.
Proof.
  induction promises as [|p ps IH]; simpl.
  - split; [constructor | reflexivity].
  - destruct p as [a|e]; simpl.
    + rewrite IH. split.
      * intros Hps. constructor; [reflexivity | exact Hps].
      * intros Hall. inversion Hall; assumption.
    + split; [discriminate|].
      intros Hall. inversion Hall; discriminate.
Qed.

Lemma elem_of_rejections {A : Type} (promises : list (Settled A)) (e : Error) :
  e ∈ rejections promises <-> Rejected e ∈ promises.
Proof.
  unfold rejections. rewrite list_elem_of_omap. split.
  - intros [p [Hin Hp]]. destruct p as [a|e']; [discriminate|].
    now inversion Hp; subst.
  - intros Hin. exists (Rejected e). split; [exact Hin | reflexivity].
Qed.

(** [Promise.all] settles in exactly one of two ways: fulfilled, when no
    promise is rejected, or rejected with the reason of one of the promises. *)
Lemma Promise_all_settlements {A : Type} (promises : list (Settled A))
    (settlement : Settled (list A)) :
  settlement ∈ Promise_all promises <->
  (rejections promises = [] /\ settlement = Resolved (fulfilments promises))
  \/ (exists e, Rejected e ∈ promises /\ settlement = Rejected e).
Proof.
  unfold Promise_all.
  destruct (rejections promises) as [|e0 es] eqn:Hrej.
  - rewrite list_elem_of_singleton. split.
    + intros ->. left. split; reflexivity.
    + intros [[_ ->]|[e [Hin _]]]; [reflexivity|].
      apply elem_of_rejections in Hin. rewrite Hrej in Hin.
      now apply elem_of_nil in Hin.
  - rewrite <- Hrej. split.
    + intros Hin. right.
      apply list_elem_of_In, in_map_iff in Hin as [e [<- Hin]].
      exists e. split; [|reflexivity].
      now apply elem_of_rejections, list_elem_of_In.
    + intros [[Hnil _]|[e [Hin ->]]].
      * rewrite Hrej in Hnil. discriminate.
      * apply list_elem_of_In, in_map, list_elem_of_In.
        now apply elem_of_rejections.
Qed.

Lemma Promise_all_nonempty {A : Type} (promises : list (Settled A)) :
  Promise_all promises <> [].
Proof.
  unfold Promise_all. destruct (rejections promises); discriminate.
Qed.

(** ** [asyncSome] *)

Lemma is_resolved_unit (p : Settled unit) :
  is_resolved p = true <-> p = Resolved tt.
Proof.
  destruct p as [[]|e]; simpl; split; try reflexivity; discriminate.
Qed.

Lemma asyncSome_unfold
    (credentials : list DomainLinkageCredential.t)
    (verify : DomainLinkageCredential.t -> Settled unit) :
  asyncSome credentials verify =
  match rejections (map verify credentials) with
  | [] => [Resolved tt]
  | reasons => map Rejected reasons
  end.
Proof.
  unfold asyncSome, Promise_all.
  destruct (rejections (map verify credentials)) as [|e es]; [reflexivity|].
  rewrite map_map. reflexivity.
Qed.

Lemma asyncSome_resolved_iff
    (credentials : list DomainLinkageCredential.t)
    (verify : DomainLinkageCredential.t -> Settled unit) :
  asyncSome credentials verify = [Resolved tt] <->
  Forall (fun credential => verify credential = Resolved tt) credentials.
Proof.
  rewrite asyncSome_unfold.
  assert (Hnil : rejections (map verify credentials) = [] <->
                 Forall (fun credential => verify credential = Resolved tt)
                        credentials).
  { rewrite rejections_nil_iff, Forall_map.
    apply Forall_iff. intros credential. apply is_resolved_unit. }
  destruct (rejections (map verify credentials)) as [|e es].
  - split; [intros _; now apply Hnil | reflexivity].
  - split; [discriminate|].
    intros Hall. apply Hnil in Hall. discriminate.
Qed.

Lemma asyncSome_settlements
    (credentials : list DomainLinkageCredential.t)
    (verify : DomainLinkageCredential.t -> Settled unit)
    (settlement : Settled unit) :
  settlement ∈ asyncSome credentials verify <->
  (Forall (fun credential => verify credential = Resolved tt) credentials
   /\ settlement = Resolved tt)
  \/ (exists credential e,
        credential ∈ credentials /\ verify credential = Rejected e
        /\ settlement = Rejected e).
Proof.
  destruct (decide (rejections (map verify credentials) = [])) as [Hnil|Hne].
  - assert (Hall : Forall (fun c => verify c = Resolved tt) credentials).
    { apply asyncSome_resolved_iff. rewrite asyncSome_unfold, Hnil. reflexivity. }
    rewrite (proj2 (asyncSome_resolved_iff _ _) Hall), list_elem_of_singleton.
    split.
    + intros ->. left. split; [exact Hall | reflexivity].
    + intros [[_ ->]|[c [e [Hin [Hc _]]]]]; [reflexivity|].
      rewrite Forall_forall in Hall.
      rewrite (Hall c) in Hc; [discriminate | exact Hin].
  - rewrite asyncSome_unfold.
    destruct (rejections (map verify credentials)) as [|e0 es] eqn:Hrej;
      [contradiction|].
    rewrite <- Hrej. split.
    + intros Hin. right.
      apply list_elem_of_In, in_map_iff in Hin as [e [<- Hin]].
      apply list_elem_of_In, elem_of_rejections in Hin.
      apply list_elem_of_In, in_map_iff in Hin as [c [Hc Hin]].
      exists c, e. split; [now apply list_elem_of_In | split; [exact Hc | reflexivity]].
    + intros [[Hall _]|[c [e [Hin [Hc ->]]]]].
      * apply asyncSome_resolved_iff in Hall.
        rewrite asyncSome_unfold, Hrej in Hall. discriminate.
      * apply list_elem_of_In, in_map, list_elem_of_In, elem_of_rejections.
        rewrite <- Hc. apply list_elem_of_In, in_map. now apply list_elem_of_In.
Qed.

Lemma asyncSome_rejected_iff
    (credentials : list DomainLinkageCredential.t)
    (verify : DomainLinkageCredential.t -> Settled unit) :
  Forall (fun settlement => exists e, settlement = Rejected e)
         (asyncSome credentials verify) <->
  Exists (fun credential => verify credential <> Resolved tt) credentials.
Proof.
  rewrite Forall_forall. split.
  - intros Hrej.
    destruct (decide (Forall (fun c => verify c = Resolved tt) credentials))
      as [Hall|Hex]; [|apply not_Forall_Exists in Hex; [exact Hex | intros c; apply _]].
    exfalso.
    destruct (Hrej (Resolved tt)) as [e He]; [|discriminate].
    apply asyncSome_settlements. left. now split.
  - intros Hex settlement Hin.
    apply asyncSome_settlements in Hin
      as [[Hall ->]|[c [e [_ [_ ->]]]]]; [|now exists e].
    exfalso. apply Exists_exists in Hex as [c [Hin Hc]].
    rewrite Forall_forall in Hall. now apply Hc, Hall.
Qed.

Lemma asyncSome_nonempty
    (credentials : list DomainLinkageCredential.t)
    (verify : DomainLinkageCredential.t -> Settled unit) :
  asyncSome credentials verify <> [].
Proof.
  rewrite asyncSome_unfold.
  destruct (rejections (map verify credentials)); discriminate.
Qed.

(** ** [verifyDidConfigPresentation] *)

Section Verification.
Context `{Platform}.

(** C4: [verifyDidConfigPresentation] resolves exactly when the check of every
    entry of [linked_dids] passes; as soon as the check of one entry fails the
    call is rejected, with the error of a failing entry, and it never settles
    in any other way. *)
Theorem verifyDidConfigPresentation_all_or_nothing
    (didUri : DidUri) (presentation : VerifiableDomainLinkagePresentation.t)
    (origin : string) :
  (verifyDidConfigPresentation didUri presentation origin = [Resolved tt] <->
   Forall (fun credential =>
             verifyCredential didUri origin credential = Resolved tt)
          (VerifiableDomainLinkagePresentation.linked_dids presentation))
  /\ (Forall (fun settlement => exists e, settlement = Rejected e)
             (verifyDidConfigPresentation didUri presentation origin) <->
      Exists (fun credential =>
                verifyCredential didUri origin credential <> Resolved tt)
             (VerifiableDomainLinkagePresentation.linked_dids presentation))
  /\ Forall (fun settlement =>
               settlement = Resolved tt
               \/ exists credential e,
                    credential ∈
                      VerifiableDomainLinkagePresentation.linked_dids presentation
                    /\ verifyCredential didUri origin credential = Rejected e
                    /\ settlement = Rejected e)
            (verifyDidConfigPresentation didUri presentation origin)
  /\ verifyDidConfigPresentation didUri presentation origin <> [].
Proof.
  unfold verifyDidConfigPresentation.
  set (entries := VerifiableDomainLinkagePresentation.linked_dids presentation).
  set (verify := verifyCredential didUri origin).
  split; [apply asyncSome_resolved_iff|].
  split; [apply asyncSome_rejected_iff|].
  split; [|apply asyncSome_nonempty].
  - rewrite Forall_forall. intros settlement Hin.
    apply asyncSome_settlements in Hin
      as [[_ ->]|[c [e [Hc [Hv ->]]]]]; [now left|].
    right. exists c, e. now repeat split.
Qed.

(** C10: a presentation whose [linked_dids] is empty verifies, whatever the
    expected DID, the origin and the platform are: no check is performed. *)
Theorem verifyDidConfigPresentation_empty
    (didUri : DidUri) (context origin : string) :
  verifyDidConfigPresentation didUri
    {| VerifiableDomainLinkagePresentation.context := context;
       VerifiableDomainLinkagePresentation.linked_dids := [] |}
    origin
  = [Resolved tt].
Proof. reflexivity. Qed.

End Verification.

Section VerificationChecks.
Context `{Platform}.

(** Past the five checks, the outcome is decided by the resolved document and
    the signature. *)
Lemma verifyCredential_after_checks
    (didUri : DidUri) (origin : string)
    (credential : DomainLinkageCredential.t) :
  passesEntryChecks didUri origin credential ->
  verifyCredential didUri origin credential =
  match Did_resolve didUri ≫= DidResolutionResult.document with
  | None => throw DidResolutionError
  | Some document =>
      keyId ← firstAssertionKeyId document;
      if negb (truthy_opt_string keyId) then throw MissingAssertionKeyError
      else if negb (Did_verifyDidSignature "assertionMethod"
                      {| DidSignature.keyUri :=
                           SelfSignedProof.verificationMethod
                             (DomainLinkageCredential.proof credential);
                         DidSignature.signature :=
                           SelfSignedProof.signature
                             (DomainLinkageCredential.proof credential) |}
                      (Crypto_coToUInt8
                         (fromCredentialIRI (DomainLinkageCredential.id credential))))
      then throw SignatureVerificationError
      else Resolved tt
  end.
Proof.
  intros (Hid & Hvalid & Hissuer & Horigin & Huri).
  unfold verifyCredential.
  rewrite Hid, Hissuer, Horigin, Hvalid, Huri, !String.eqb_refl.
  reflexivity.
Qed.

(** A document without an [assertionMethod] property is rejected with the
    error the source raises for a missing assertion key. *)
Lemma verifyCredential_no_assertionMethod
    (didUri : DidUri) (origin : string)
    (credential : DomainLinkageCredential.t) (document : DidDocument.t) :
  passesEntryChecks didUri origin credential ->
  Did_resolve didUri ≫= DidResolutionResult.document = Some document ->
  DidDocument.assertionMethod document = None ->
  verifyCredential didUri origin credential = Rejected MissingAssertionKeyError.
Proof.
  intros Hchecks Hresolve Hnone.
  rewrite (verifyCredential_after_checks _ _ _ Hchecks), Hresolve.
  unfold firstAssertionKeyId. rewrite Hnone. reflexivity.
Qed.

(** C5: when the resolved document's [assertionMethod] is the empty list, the
    entry is rejected with a [TypeError], raised by reading [.id] of the
    absent first key, and not with the missing-assertion-key error. *)
Theorem verifyDidConfigPresentation_empty_assertionMethod
    (didUri : DidUri) (context origin : string)
    (credential : DomainLinkageCredential.t) (document : DidDocument.t) :
  passesEntryChecks didUri origin credential ->
  Did_resolve didUri ≫= DidResolutionResult.document = Some document ->
  DidDocument.assertionMethod document = Some [] ->
  verifyCredential didUri origin credential = Rejected TypeError
  /\ verifyDidConfigPresentation didUri
       {| VerifiableDomainLinkagePresentation.context := context;
          VerifiableDomainLinkagePresentation.linked_dids := [credential] |}
       origin
     = [Rejected TypeError].
Proof.
  intros Hchecks Hresolve Hempty.
  assert (Hentry : verifyCredential didUri origin credential = Rejected TypeError).
  { rewrite (verifyCredential_after_checks _ _ _ Hchecks), Hresolve.
    unfold firstAssertionKeyId. rewrite Hempty. reflexivity. }
  split; [exact Hentry|].
  unfold verifyDidConfigPresentation. rewrite asyncSome_unfold. simpl.
  rewrite Hentry. reflexivity.
Qed.

(** The issuer check comes third: it is reached by an entry whose subject is
    the expected DID and a syntactically valid one. *)
Lemma verifyCredential_issuer_mismatch
    (didUri : DidUri) (origin : string)
    (credential : DomainLinkageCredential.t) :
  CredentialSubject.id (DomainLinkageCredential.credentialSubject credential)
    = didUri ->
  Did_validateUri didUri = true ->
  DomainLinkageCredential.issuer credential <>
    CredentialSubject.id (DomainLinkageCredential.credentialSubject credential) ->
  verifyCredential didUri origin credential = Rejected IssuerMismatchError.
Proof.
  intros Hid Hvalid Hissuer.
  unfold verifyCredential.
  rewrite Hid in *. rewrite String.eqb_refl, Hvalid. simpl.
  apply String.eqb_neq in Hissuer. rewrite Hissuer. reflexivity.
Qed.


End VerificationChecks.

(** ** [getDomainLinkagePresentation] *)

Section Assembly.
Context `{Platform}.

(** What acceptance by [getDomainLinkagePresentation] says about the input and
    the envelope. *)
Lemma getDomainLinkagePresentation_Resolved
    (clock : Clock) (credential : ICredentialPresentation.t)
    (expirationDate : option string)
    (envelope : VerifiableDomainLinkagePresentation.t) :
  getDomainLinkagePresentation clock credential expirationDate
    = Resolved envelope ->
  exists (didUri : DidUri) (origin : string) (entry : DomainLinkageCredential.t),
    Claim.owner (ICredentialPresentation.claim credential) = Some didUri
    /\ Did_validateUri didUri = true
    /\ Claim.contents (ICredentialPresentation.claim credential) !! "origin"
       = Some (VString origin)
    /\ validUrl_isUri origin = true
    /\ VerifiableDomainLinkagePresentation.context envelope
       = DID_CONFIGURATION_CONTEXT
    /\ VerifiableDomainLinkagePresentation.linked_dids envelope = [entry]
    /\ DomainLinkageCredential.id entry
       = toCredentialIRI (ICredentialPresentation.rootHash credential)
    /\ DomainLinkageCredential.issuer entry = didUri
    /\ DomainLinkageCredential.credentialSubject entry
       = {| CredentialSubject.id := didUri;
            CredentialSubject.origin := origin;
            CredentialSubject.rootHash := None |}
    /\ DomainLinkageCredential.expirationDate entry
       = fst (defaultExpirationDate clock expirationDate)
    /\ DomainLinkageCredential.issuanceDate entry
       = Date_toISOString (clock (snd (defaultExpirationDate clock expirationDate)))
    /\ SelfSignedProof.verificationMethod (DomainLinkageCredential.proof entry)
       = ClaimerSignature.keyUri
           (ICredentialPresentation.claimerSignature credential)
    /\ SelfSignedProof.signature (DomainLinkageCredential.proof entry)
       = ClaimerSignature.signature
           (ICredentialPresentation.claimerSignature credential).
Proof.
  unfold getDomainLinkagePresentation.
  destruct (defaultExpirationDate clock expirationDate) as [expiration reads].
  destruct (negb _ && negb _); [discriminate|].
  unfold validateOwner.
  destruct (Claim.owner _) as [didUri|] eqn:Howner; [|discriminate].
  destruct (Did_validateUri didUri) eqn:Hvalid; [|discriminate].
  simpl.
  destruct (Claim.contents _ !! "origin") as [[origin| | |]|] eqn:Horigin;
    try discriminate.
  destruct (validUrl_isUri origin) eqn:Huri; [|discriminate].
  simpl.
  destruct (Did_verifyDidSignature _ _ _); [|discriminate].
  simpl. intros Henvelope. inversion Henvelope; subst; clear Henvelope.
  eexists didUri, origin, _. simpl. repeat split; first [reflexivity | assumption].
Qed.

(** C3: the [credentialSubject] of the linked credential an accepted
    presentation yields is [{id, origin}], the owner and the origin of the
    claim; it has no [rootHash] property, so it is not the object
    [{id, origin, rootHash}] the integration test expects. *)
Theorem getDomainLinkagePresentation_credentialSubject
    (clock : Clock) (credential : ICredentialPresentation.t)
    (expirationDate : option string)
    (envelope : VerifiableDomainLinkagePresentation.t) :
  getDomainLinkagePresentation clock credential expirationDate
    = Resolved envelope ->
  exists (didUri : DidUri) (origin : string),
    Claim.owner (ICredentialPresentation.claim credential) = Some didUri
    /\ Claim.contents (ICredentialPresentation.claim credential) !! "origin"
       = Some (VString origin)
    /\ map DomainLinkageCredential.credentialSubject
           (VerifiableDomainLinkagePresentation.linked_dids envelope)
       = [ {| CredentialSubject.id := didUri;
              CredentialSubject.origin := origin;
              CredentialSubject.rootHash := None |} ]
    /\ map DomainLinkageCredential.credentialSubject
           (VerifiableDomainLinkagePresentation.linked_dids envelope)
       <> [ {| CredentialSubject.id := didUri;
               CredentialSubject.origin := origin;
               CredentialSubject.rootHash :=
                 Some (ICredentialPresentation.rootHash credential) |} ].
Proof.
  intros Haccepted.
  apply getDomainLinkagePresentation_Resolved in Haccepted
    as (didUri & origin & entry & Howner & _ & Horigin & _ & _ & Hlinked
        & _ & _ & Hsubject & _).
  exists didUri, origin. rewrite Hlinked. simpl. rewrite Hsubject.
  repeat split; try assumption. discriminate.
Qed.

End Assembly.

Section AssemblyGuards.
Context `{Platform}.

(** The first guard of [getDomainLinkagePresentation] fires exactly when the
    owner is unset (or empty) and [origin] is missing (or falsy) at once. *)
Lemma getDomainLinkagePresentation_MalformedClaimError_iff
    (clock : Clock) (credential : ICredentialPresentation.t)
    (expirationDate : option string) :
  getDomainLinkagePresentation clock credential expirationDate
    = Rejected MalformedClaimError
  <-> truthy_opt_string (Claim.owner (ICredentialPresentation.claim credential))
        = false
      /\ truthy (Claim.contents (ICredentialPresentation.claim credential)
                   !! "origin") = false.
Proof.
  unfold getDomainLinkagePresentation.
  destruct (defaultExpirationDate clock expirationDate) as [expiration reads].
  destruct (truthy_opt_string _) eqn:Howner;
    destruct (truthy _) eqn:Horigin; simpl;
    try (split; [|intros [? ?]; discriminate]);
    try (split; [intros _; split; reflexivity | reflexivity]);
    unfold validateOwner;
    (destruct (Claim.owner _) as [didUri|]; [|discriminate]);
    (destruct (Did_validateUri didUri); [|discriminate]); simpl;
    (destruct (Claim.contents _ !! "origin") as [[origin| | |]|];
       try discriminate);
    (destruct (validUrl_isUri origin); [|discriminate]); simpl;
    (destruct (Did_verifyDidSignature _ _ _); discriminate).
Qed.

(** With the owner set and [origin] missing the call fails, but with the error
    of the later origin check or of the DID validation. *)
Lemma getDomainLinkagePresentation_origin_missing
    (clock : Clock) (credential : ICredentialPresentation.t)
    (expirationDate : option string) (didUri : DidUri) :
  Claim.owner (ICredentialPresentation.claim credential) = Some didUri ->
  Claim.contents (ICredentialPresentation.claim credential) !! "origin" = None ->
  getDomainLinkagePresentation clock credential expirationDate
    = Rejected (if truthy_string didUri
                then if Did_validateUri didUri then InvalidOriginError
                     else InvalidDidError
                else MalformedClaimError).
Proof.
  intros Howner Horigin. unfold getDomainLinkagePresentation.
  destruct (defaultExpirationDate clock expirationDate) as [expiration reads].
  rewrite Howner, Horigin. simpl.
  destruct (truthy_string didUri); [|reflexivity]. simpl.
  destruct (Did_validateUri didUri); reflexivity.
Qed.

(** With [origin] present and the owner unset the call fails with the error of
    the DID validation. *)
Lemma getDomainLinkagePresentation_owner_unset
    (clock : Clock) (credential : ICredentialPresentation.t)
    (expirationDate : option string) (origin : ClaimValue) :
  Claim.owner (ICredentialPresentation.claim credential) = None ->
  Claim.contents (ICredentialPresentation.claim credential) !! "origin"
    = Some origin ->
  truthy (Some origin) = true ->
  getDomainLinkagePresentation clock credential expirationDate
    = Rejected InvalidDidError.
Proof.
  intros Howner Horigin Htruthy. unfold getDomainLinkagePresentation.
  destruct (defaultExpirationDate clock expirationDate) as [expiration reads].
  rewrite Howner, Horigin, Htruthy. reflexivity.
Qed.

(** C9 (amended): without an expiration timestamp, [expirationDate] is the
    reading of the clock taken on entry plus 157 680 000 000 ms, that is
    5 x 365 days; [issuanceDate] is the next reading of the clock, and
    [expirationDate] is that reading plus 5 x 365 days when both readings
    are equal. *)
Theorem getDomainLinkagePresentation_default_expirationDate
    (clock : Clock) (credential : ICredentialPresentation.t)
    (envelope : VerifiableDomainLinkagePresentation.t) :
  getDomainLinkagePresentation clock credential None = Resolved envelope ->
  exists entry : DomainLinkageCredential.t,
    VerifiableDomainLinkagePresentation.linked_dids envelope = [entry]
    /\ DomainLinkageCredential.expirationDate entry
       = Date_toISOString (clock 0%nat + 157680000000)
    /\ (157680000000 = 5 * 365 * (24 * 60 * 60 * 1000))%Z
    /\ DomainLinkageCredential.issuanceDate entry
       = Date_toISOString (clock 1%nat)
    /\ (clock 1%nat = clock 0%nat ->
        DomainLinkageCredential.expirationDate entry
        = Date_toISOString (clock 1%nat + 5 * 365 * (24 * 60 * 60 * 1000))).
Proof.
  intros Haccepted.
  apply getDomainLinkagePresentation_Resolved in Haccepted
    as (didUri & origin & entry & _ & _ & _ & _ & _ & Hlinked
        & _ & _ & _ & Hexpiration & Hissuance & _).
  simpl in Hexpiration, Hissuance.
  exists entry. split; [exact Hlinked|].
  split; [exact Hexpiration|]. split; [reflexivity|].
  split; [exact Hissuance|].
  intros ->. exact Hexpiration.
Qed.

End AssemblyGuards.

(** ** [createCredential] and the round trip *)

Section Issuance.
Context `{Platform}.


(** Origin validation follows DID resolution: a DID that does not resolve to
    a document fails first, whatever the origin is. *)
Lemma createCredential_unresolved
    (signCallback : SignCallback) (origin : string) (didUri : DidUri) :
  Did_resolve didUri ≫= DidResolutionResult.document = None ->
  createCredential signCallback origin didUri = Rejected DidResolutionError.
Proof.
  intros Hresolve. unfold createCredential. rewrite Hresolve. reflexivity.
Qed.

(** What [createCredential] issues for a DID with an assertion key. *)
Lemma createCredential_Resolved
    (signCallback : SignCallback) (origin : string) (didUri : DidUri)
    (document : DidDocument.t) :
  Did_resolve didUri ≫= DidResolutionResult.document = Some document ->
  validUrl_isUri origin = true ->
  exposesAssertionKey document ->
  createCredential signCallback origin didUri =
  Resolved
    (Credential_createPresentation
       (Credential_fromClaim
          (Claim_fromCTypeAndClaimContents ctypeDomainLinkage
             {[ "origin" := VString origin ]} (DidDocument.uri document)))
       signCallback).
Proof.
  intros Hresolve Horigin (key & keys & Hkeys & _). unfold createCredential.
  rewrite Hresolve, Horigin, Hkeys. reflexivity.
Qed.

(** C1: for a valid origin, a DID that resolves to its document, a document
    that exposes an assertion-method key and a signing capability bound to
    such a key, issuance, then assembly, then verification with the same DID
    and origin all succeed. *)
Theorem issue_assemble_verify_roundtrip
    (signCallback : SignCallback) (origin : string) (didUri : DidUri)
    (document : DidDocument.t) (clock : Clock)
    (expirationDate : option string) :
  validUrl_isUri origin = true ->
  resolvesTo didUri document ->
  exposesAssertionKey document ->
  boundToAssertionKey signCallback ->
  exists (credential : ICredentialPresentation.t)
         (envelope : VerifiableDomainLinkagePresentation.t),
    createCredential signCallback origin didUri = Resolved credential
    /\ getDomainLinkagePresentation clock credential expirationDate
       = Resolved envelope
    /\ verifyDidConfigPresentation didUri envelope origin = [Resolved tt].
Proof.
  intros Horigin (Hresolve & Huri & Hvalid & Hdid) Hkey Hsigner.
  rewrite (createCredential_Resolved signCallback origin didUri document
             Hresolve Horigin Hkey).
  destruct Hkey as (key & keys & Hkeys & Hkeyid).
  rewrite Huri.
  eexists. 
  assert (Hassembled :
    exists envelope,
      getDomainLinkagePresentation clock
        (Credential_createPresentation
           (Credential_fromClaim
              (Claim_fromCTypeAndClaimContents ctypeDomainLinkage
                 {[ "origin" := VString origin ]} didUri))
           signCallback) expirationDate = Resolved envelope
      /\ verifyDidConfigPresentation didUri envelope origin = [Resolved tt]);
    [|destruct Hassembled as (envelope & Hassembled & Hverified);
      exists envelope; split; [reflexivity | split; assumption]].
  unfold getDomainLinkagePresentation.
  destruct (defaultExpirationDate clock expirationDate) as [expiration reads].
  cbn [Credential_createPresentation Credential_fromClaim
       Claim_fromCTypeAndClaimContents
       ICredentialPresentation.claim ICredentialPresentation.rootHash
       ICredentialPresentation.claimerSignature
       ICredentialPresentation.claimHashes
       ICredentialPresentation.claimNonceMap
       ICredential.claim ICredential.rootHash ICredential.claimHashes
       ICredential.claimNonceMap ICredential.legitimations
       ICredential.delegationId
       Claim.owner Claim.contents Claim.cTypeHash
       ClaimerSignature.keyUri ClaimerSignature.signature
       ClaimerSignature.challenge
       truthy_opt_string validateOwner].
  rewrite Hdid, Hvalid, lookup_singleton_eq. cbn [negb andb mbind Settled_bind].
  rewrite Horigin. cbn [negb].
  match goal with
  | |- context [Did_verifyDidSignature _ ?s ?m] =>
      pose proof (Hsigner
        {| SignRequestData.data := m;
           SignRequestData.did := Some didUri;
           SignRequestData.keyRelationship := "authentication" |}) as Hsigned
  end.
  cbn [SignRequestData.data] in Hsigned.
  rewrite Hsigned. cbn [negb].
  eexists. split; [reflexivity|].
  unfold verifyDidConfigPresentation.
  apply asyncSome_resolved_iff.
  cbn [VerifiableDomainLinkagePresentation.linked_dids].
  constructor; [|constructor].
  rewrite verifyCredential_after_checks.
  - rewrite Hresolve. unfold firstAssertionKeyId. rewrite Hkeys.
    cbn [lookup list_lookup mbind Settled_bind truthy_opt_string].
    rewrite Hkeyid.
    cbn [negb DomainLinkageCredential.id DomainLinkageCredential.proof
         SelfSignedProof.verificationMethod SelfSignedProof.signature].
    rewrite fromCredentialIRI_toCredentialIRI, Hsigned. reflexivity.
  - unfold passesEntryChecks. simpl. now repeat split.
Qed.

End Issuance.

(** * The functions on the concrete platform *)

(** The issued presentation, the assembled envelope and its verification, as
    in the integration test. *)
Example createCredential_demo :
  createCredential (H := Demo.platform) Demo.assertionSigner Demo.origin Demo.alice
  = Resolved Demo.credential.
Proof. vm_compute. reflexivity. Qed.

Example getDomainLinkagePresentation_demo :
  getDomainLinkagePresentation (H := Demo.platform) Demo.frozen Demo.credential None
  = Resolved (Demo.envelope [Demo.linked Demo.alice Demo.alice]).
Proof. vm_compute. reflexivity. Qed.

Example verifyDidConfigPresentation_demo :
  verifyDidConfigPresentation (H := Demo.platform) Demo.alice
    (Demo.envelope [Demo.linked Demo.alice Demo.alice]) Demo.origin
  = [Resolved tt].
Proof. vm_compute. reflexivity. Qed.

(** A document without [assertionMethod] is reported as lacking the key. *)
Example verifyDidConfigPresentation_demo_no_assertionMethod :
  verifyDidConfigPresentation (H := Demo.platform) Demo.carol
    (Demo.envelope [Demo.linked Demo.carol Demo.carol]) Demo.origin
  = [Rejected MissingAssertionKeyError].
Proof. vm_compute. reflexivity. Qed.

Lemma Demo_resolvesTo_alice :
  resolvesTo (H := Demo.platform) Demo.alice Demo.aliceDocument.
Proof. repeat split. Defined.

Lemma Demo_exposesAssertionKey_alice : exposesAssertionKey Demo.aliceDocument.
Proof. exists Demo.aliceKey, []. split; reflexivity. Defined.

Lemma Demo_boundToAssertionKey :
  boundToAssertionKey (H := Demo.platform) Demo.assertionSigner.
Proof.
  intros request. cbn. unfold Demo.verifyDidSignature. cbn.
  rewrite !String.eqb_refl. reflexivity.
Defined.

(** Witness of C1 on the concrete platform. *)
Lemma issue_assemble_verify_roundtrip_witness :
  exists (credential : ICredentialPresentation.t)
         (envelope : VerifiableDomainLinkagePresentation.t),
    createCredential (H := Demo.platform) Demo.assertionSigner Demo.origin
      Demo.alice = Resolved credential
    /\ getDomainLinkagePresentation (H := Demo.platform) Demo.frozen credential
         None = Resolved envelope
    /\ verifyDidConfigPresentation (H := Demo.platform) Demo.alice envelope
         Demo.origin = [Resolved tt].
Proof.
  apply (issue_assemble_verify_roundtrip (H := Demo.platform)
           Demo.assertionSigner Demo.origin Demo.alice Demo.aliceDocument
           Demo.frozen None).
  - reflexivity.
  - exact Demo_resolvesTo_alice.
  - exact Demo_exposesAssertionKey_alice.
  - exact Demo_boundToAssertionKey.
Defined.

(** C2: the guard raises the malformed-claim error only when the owner and
    [origin] are both missing.  A claim with an owner and without [origin] is
    rejected by the later origin check, and a claim with [origin] and without
    owner by the DID validation. *)
Theorem getDomainLinkagePresentation_one_missing :
  (forall (platform : Platform) (clock : Clock)
          (credential : ICredentialPresentation.t)
          (expirationDate : option string),
     getDomainLinkagePresentation (H := platform) clock credential
       expirationDate = Rejected MalformedClaimError
     <-> truthy_opt_string
           (Claim.owner (ICredentialPresentation.claim credential)) = false
         /\ truthy (Claim.contents (ICredentialPresentation.claim credential)
                      !! "origin") = false)
  /\ Claim.contents (ICredentialPresentation.claim Demo.credentialWithoutOrigin)
       !! "origin" = None
  /\ getDomainLinkagePresentation (H := Demo.platform) Demo.frozen
       Demo.credentialWithoutOrigin None = Rejected InvalidOriginError
  /\ Claim.owner (ICredentialPresentation.claim Demo.credentialWithoutOwner)
     = None
  /\ getDomainLinkagePresentation (H := Demo.platform) Demo.frozen
       Demo.credentialWithoutOwner None = Rejected InvalidDidError.
Proof.
  split.
  - intros platform clock credential expirationDate.
    apply getDomainLinkagePresentation_MalformedClaimError_iff.
  - repeat split; vm_compute; reflexivity.
Qed.

(** Witness of C3. *)
Lemma getDomainLinkagePresentation_credentialSubject_witness :
  exists (didUri : DidUri) (origin : string),
    Claim.owner (ICredentialPresentation.claim Demo.credential) = Some didUri
    /\ Claim.contents (ICredentialPresentation.claim Demo.credential) !! "origin"
       = Some (VString origin)
    /\ map DomainLinkageCredential.credentialSubject
           (VerifiableDomainLinkagePresentation.linked_dids
              (Demo.envelope [Demo.linked Demo.alice Demo.alice]))
       = [ {| CredentialSubject.id := didUri;
              CredentialSubject.origin := origin;
              CredentialSubject.rootHash := None |} ]
    /\ map DomainLinkageCredential.credentialSubject
           (VerifiableDomainLinkagePresentation.linked_dids
              (Demo.envelope [Demo.linked Demo.alice Demo.alice]))
       <> [ {| CredentialSubject.id := didUri;
               CredentialSubject.origin := origin;
               CredentialSubject.rootHash :=
                 Some (ICredentialPresentation.rootHash Demo.credential) |} ].
Proof.
  apply (getDomainLinkagePresentation_credentialSubject (H := Demo.platform)
           Demo.frozen Demo.credential None).
  vm_compute. reflexivity.
Defined.

Lemma Demo_passesEntryChecks_bob :
  passesEntryChecks (H := Demo.platform) Demo.bob Demo.origin
    (Demo.linked Demo.bob Demo.bob).
Proof. repeat split. Defined.

(** Witness of C5: [bob]'s document lists no assertion key. *)
Lemma verifyDidConfigPresentation_empty_assertionMethod_witness :
  DidDocument.assertionMethod Demo.bobDocument = Some []
  /\ verifyCredential (H := Demo.platform) Demo.bob Demo.origin
       (Demo.linked Demo.bob Demo.bob) = Rejected TypeError
  /\ verifyDidConfigPresentation (H := Demo.platform) Demo.bob
       {| VerifiableDomainLinkagePresentation.context := DID_CONFIGURATION_CONTEXT;
          VerifiableDomainLinkagePresentation.linked_dids :=
            [Demo.linked Demo.bob Demo.bob] |}
       Demo.origin
     = [Rejected TypeError].
Proof.
  split; [reflexivity|].
  apply (verifyDidConfigPresentation_empty_assertionMethod (H := Demo.platform)
           Demo.bob DID_CONFIGURATION_CONTEXT Demo.origin
           (Demo.linked Demo.bob Demo.bob) Demo.bobDocument).
  - exact Demo_passesEntryChecks_bob.
  - reflexivity.
  - reflexivity.
Defined.



(** C7: decoding the id made from a root hash gives the root hash back, for
    every root hash; hence the root hash the verifier recovers from the id of
    an assembled envelope's linked credential is the [rootHash] of the
    credential the envelope was assembled from. *)
Theorem credential_id_codec_reversible :
  (forall rootHash : string,
     fromCredentialIRI (toCredentialIRI rootHash) = rootHash)
  /\ (forall (platform : Platform) (clock : Clock)
             (credential : ICredentialPresentation.t)
             (expirationDate : option string)
             (envelope : VerifiableDomainLinkagePresentation.t),
        getDomainLinkagePresentation (H := platform) clock credential
          expirationDate = Resolved envelope ->
        map (fun entry => fromCredentialIRI (DomainLinkageCredential.id entry))
            (VerifiableDomainLinkagePresentation.linked_dids envelope)
        = [ICredentialPresentation.rootHash credential]).
Proof.
  split; [exact fromCredentialIRI_toCredentialIRI|].
  intros platform clock credential expirationDate envelope Haccepted.
  apply getDomainLinkagePresentation_Resolved in Haccepted
    as (didUri & origin & entry & _ & _ & _ & _ & _ & Hlinked & Hid & _).
  rewrite Hlinked. simpl.
  rewrite Hid, fromCredentialIRI_toCredentialIRI. reflexivity.
Qed.

(** Witness of C7 on the envelope assembled for [alice]. *)
Lemma credential_id_codec_reversible_witness :
  fromCredentialIRI
    (toCredentialIRI (ICredentialPresentation.rootHash Demo.credential))
  = ICredentialPresentation.rootHash Demo.credential
  /\ map (fun entry => fromCredentialIRI (DomainLinkageCredential.id entry))
         (VerifiableDomainLinkagePresentation.linked_dids
            (Demo.envelope [Demo.linked Demo.alice Demo.alice]))
     = [ICredentialPresentation.rootHash Demo.credential].
Proof.
  split.
  - apply (proj1 credential_id_codec_reversible).
  - apply (proj2 credential_id_codec_reversible Demo.platform Demo.frozen
             Demo.credential None).
    vm_compute. reflexivity.
Defined.



(** Counterexample to C9 as stated: the clock advances by one millisecond
    between the reading made for the default [expirationDate] and the reading
    made for [issuanceDate]; the expiration date is not the issuance time plus
    five years (of 365 days). *)
Lemma getDomainLinkagePresentation_default_expirationDate_counterexample :
  DomainLinkageCredential.issuanceDate
    <$> Demo.firstLinked
          (getDomainLinkagePresentation (H := Demo.platform) Demo.ticking
             Demo.credential None)
  = Some (Demo.toISOString 1793577600001)
  /\ DomainLinkageCredential.expirationDate
       <$> Demo.firstLinked
             (getDomainLinkagePresentation (H := Demo.platform) Demo.ticking
                Demo.credential None)
     = Some "2031-11-01T00:00:00.000Z"
  /\ Demo.toISOString (1793577600001 + 1000 * 60 * 60 * 24 * 365 * 5)
     = "2031-11-01T00:00:00.001Z"
  /\ "2031-11-01T00:00:00.000Z" <> "2031-11-01T00:00:00.001Z".
Proof.
  repeat split; try (vm_compute; reflexivity). discriminate.
Qed.

(** Witness of C9 (amended), with a clock that stands still. *)
Lemma getDomainLinkagePresentation_default_expirationDate_witness :
  exists entry : DomainLinkageCredential.t,
    VerifiableDomainLinkagePresentation.linked_dids
      (Demo.envelope [Demo.linked Demo.alice Demo.alice]) = [entry]
    /\ DomainLinkageCredential.expirationDate entry
       = Demo.toISOString (Demo.frozen 0%nat + 157680000000)
    /\ (157680000000 = 5 * 365 * (24 * 60 * 60 * 1000))%Z
    /\ DomainLinkageCredential.issuanceDate entry
       = Demo.toISOString (Demo.frozen 1%nat)
    /\ (Demo.frozen 1%nat = Demo.frozen 0%nat ->
        DomainLinkageCredential.expirationDate entry
        = Demo.toISOString
            (Demo.frozen 1%nat + 5 * 365 * (24 * 60 * 60 * 1000))).
Proof.
  apply (getDomainLinkagePresentation_default_expirationDate
           (H := Demo.platform) Demo.frozen Demo.credential).
  vm_compute. reflexivity.
Defined.

(** * Further properties of the module *)

(** ** What the verifier accepts, and what it does not look at *)

Section VerifierProperties.
Context `{Platform}.

(** X1: the check of an entry passes exactly when its subject is the expected
    DID, a syntactically valid one, its issuer is that DID, its origin is the
    expected origin, a valid URL, the DID resolves to a document whose first
    assertion key has a non-empty id, and the verification primitive accepts
    the proof's signature, made with the proof's verification method, over
    the root hash decoded from the entry's id. *)
Theorem verifyCredential_Resolved_iff
    (didUri : DidUri) (origin : string)
    (credential : DomainLinkageCredential.t) :
  verifyCredential didUri origin credential = Resolved tt
  <-> passesEntryChecks didUri origin credential
      /\ exists (document : DidDocument.t) (key : DidKey.t) (keys : list DidKey.t),
           Did_resolve didUri ≫= DidResolutionResult.document = Some document
           /\ DidDocument.assertionMethod document = Some (key :: keys)
           /\ truthy_string (DidKey.id key) = true
           /\ Did_verifyDidSignature "assertionMethod"
                {| DidSignature.keyUri :=
                     SelfSignedProof.verificationMethod
                       (DomainLinkageCredential.proof credential);
                   DidSignature.signature :=
                     SelfSignedProof.signature
                       (DomainLinkageCredential.proof credential) |}
                (Crypto_coToUInt8
                   (fromCredentialIRI (DomainLinkageCredential.id credential)))
              = true.
Proof.
  split.
  - intros Hrun.
    assert (Hchecks : passesEntryChecks didUri origin credential).
    { revert Hrun. unfold verifyCredential, passesEntryChecks.
      destruct (String.eqb didUri _) eqn:Hid; [|discriminate].
      apply String.eqb_eq in Hid. rewrite <- Hid. cbn [negb].
      destruct (Did_validateUri didUri) eqn:Hvalid; [|discriminate]. cbn [negb].
      destruct (String.eqb (DomainLinkageCredential.issuer credential) didUri)
        eqn:Hissuer; [|discriminate].
      apply String.eqb_eq in Hissuer. cbn [negb].
      destruct (String.eqb origin _) eqn:Horigin; [|discriminate].
      apply String.eqb_eq in Horigin. cbn [negb].
      destruct (validUrl_isUri origin) eqn:Huri; [|discriminate].
      intros _. now repeat split. }
    split; [exact Hchecks|].
    rewrite (verifyCredential_after_checks _ _ _ Hchecks) in Hrun.
    destruct (Did_resolve didUri ≫= DidResolutionResult.document)
      as [document|]; [|discriminate].
    unfold firstAssertionKeyId in Hrun.
    destruct (DidDocument.assertionMethod document) as [[|key keys]|] eqn:Hkeys;
      try discriminate.
    cbn [lookup list_lookup mbind Settled_bind truthy_opt_string] in Hrun.
    destruct (truthy_string (DidKey.id key)) eqn:Hkeyid; [|discriminate].
    cbn [negb] in Hrun.
    destruct (Did_verifyDidSignature _ _ _) eqn:Hsigned; [|discriminate].
    exists document, key, keys. now repeat split.
  - intros (Hchecks & document & key & keys & Hresolve & Hkeys & Hkeyid & Hsigned).
    rewrite (verifyCredential_after_checks _ _ _ Hchecks), Hresolve.
    unfold firstAssertionKeyId. rewrite Hkeys.
    cbn [lookup list_lookup mbind Settled_bind truthy_opt_string].
    rewrite Hkeyid, Hsigned. reflexivity.
Qed.

(** The first check: an entry about another DID than the expected one. *)
Lemma verifyCredential_did_mismatch
    (didUri : DidUri) (origin : string)
    (credential : DomainLinkageCredential.t) :
  CredentialSubject.id (DomainLinkageCredential.credentialSubject credential)
    <> didUri ->
  verifyCredential didUri origin credential = Rejected DidMismatchError.
Proof.
  intros Hid. unfold verifyCredential.
  assert (Heqb : String.eqb didUri
            (CredentialSubject.id
               (DomainLinkageCredential.credentialSubject credential)) = false).
  { apply String.eqb_neq. congruence. }
  rewrite Heqb. reflexivity.
Qed.

(** X2: an entry about another DID than the expected one makes the call
    reject, whatever the rest of the entry (issuer, origin, proof) and the
    platform say: the entry's check fails with the DID-mismatch error before
    anything is validated, resolved or verified, and that is the error of the
    call when the entry is the only one. *)
Theorem verifyDidConfigPresentation_did_mismatch
    (didUri : DidUri) (origin : string)
    (presentation : VerifiableDomainLinkagePresentation.t)
    (credential : DomainLinkageCredential.t) :
  credential ∈ VerifiableDomainLinkagePresentation.linked_dids presentation ->
  CredentialSubject.id (DomainLinkageCredential.credentialSubject credential)
    <> didUri ->
  verifyCredential didUri origin credential = Rejected DidMismatchError
  /\ Forall (fun settlement => exists e, settlement = Rejected e)
            (verifyDidConfigPresentation didUri presentation origin)
  /\ (VerifiableDomainLinkagePresentation.linked_dids presentation = [credential]
      -> verifyDidConfigPresentation didUri presentation origin
         = [Rejected DidMismatchError]).
Proof.
  intros Hin Hid.
  pose proof (verifyCredential_did_mismatch didUri origin credential Hid)
    as Hentry.
  split; [exact Hentry|]. split.
  - apply asyncSome_rejected_iff, Exists_exists.
    exists credential. split; [exact Hin|]. rewrite Hentry. discriminate.
  - intros Hsingle. unfold verifyDidConfigPresentation.
    rewrite asyncSome_unfold, Hsingle. simpl. rewrite Hentry. reflexivity.
Qed.

(** X3: the verifier reads of an entry only its issuer, its subject's id and
    origin, its id and its proof's verification method and signature.  Two
    entries that agree on them are judged alike, whatever
    their dates, contexts, types, challenge, proof type and proof purpose
    are: in particular the expiration date is never compared with the
    clock. *)
Theorem verifyCredential_reads_only
    (didUri : DidUri) (origin : string)
    (credential other : DomainLinkageCredential.t) :
  DomainLinkageCredential.issuer credential
    = DomainLinkageCredential.issuer other ->
  CredentialSubject.id (DomainLinkageCredential.credentialSubject credential)
    = CredentialSubject.id (DomainLinkageCredential.credentialSubject other) ->
  CredentialSubject.origin (DomainLinkageCredential.credentialSubject credential)
    = CredentialSubject.origin (DomainLinkageCredential.credentialSubject other) ->
  DomainLinkageCredential.id credential = DomainLinkageCredential.id other ->
  SelfSignedProof.verificationMethod (DomainLinkageCredential.proof credential)
    = SelfSignedProof.verificationMethod (DomainLinkageCredential.proof other) ->
  SelfSignedProof.signature (DomainLinkageCredential.proof credential)
    = SelfSignedProof.signature (DomainLinkageCredential.proof other) ->
  verifyCredential didUri origin credential
  = verifyCredential didUri origin other.
Proof.
  intros Hissuer Hid Horigin Hcredid Hmethod Hsignature.
  unfold verifyCredential.
  rewrite Hissuer, Hid, Horigin, Hcredid, Hmethod, Hsignature. reflexivity.
Qed.

(** X4: entries are judged together: a presentation made of two lists of
    entries verifies exactly when both lists verify on their own, so no
    valid entry makes up for an invalid one, and the order of the entries
    does not matter for acceptance. *)
Theorem verifyDidConfigPresentation_app
    (didUri : DidUri) (origin context : string)
    (entries more : list DomainLinkageCredential.t) :
  (verifyDidConfigPresentation didUri
     {| VerifiableDomainLinkagePresentation.context := context;
        VerifiableDomainLinkagePresentation.linked_dids := entries ++ more |}
     origin = [Resolved tt]
   <-> verifyDidConfigPresentation didUri
         {| VerifiableDomainLinkagePresentation.context := context;
            VerifiableDomainLinkagePresentation.linked_dids := entries |}
         origin = [Resolved tt]
       /\ verifyDidConfigPresentation didUri
            {| VerifiableDomainLinkagePresentation.context := context;
               VerifiableDomainLinkagePresentation.linked_dids := more |}
            origin = [Resolved tt])
  /\ (verifyDidConfigPresentation didUri
        {| VerifiableDomainLinkagePresentation.context := context;
           VerifiableDomainLinkagePresentation.linked_dids := entries ++ more |}
        origin = [Resolved tt]
      <-> verifyDidConfigPresentation didUri
            {| VerifiableDomainLinkagePresentation.context := context;
               VerifiableDomainLinkagePresentation.linked_dids := more ++ entries |}
            origin = [Resolved tt]).
Proof.
  unfold verifyDidConfigPresentation.
  cbn [VerifiableDomainLinkagePresentation.linked_dids].
  rewrite !asyncSome_resolved_iff, !Forall_app. tauto.
Qed.

End VerifierProperties.

(** ** What the assembler accepts and what it emits *)

Section AssemblerProperties.
Context `{Platform}.

(** The envelope assembled for [didUri] and [origin] from [credential]. *)
Lemma getDomainLinkagePresentation_accepted
    (clock : Clock) (credential : ICredentialPresentation.t)
    (expirationDate : option string)
    (envelope : VerifiableDomainLinkagePresentation.t) :
  getDomainLinkagePresentation clock credential expirationDate
    = Resolved envelope ->
  exists (didUri : DidUri) (origin : string),
    Claim.owner (ICredentialPresentation.claim credential) = Some didUri
    /\ Claim.contents (ICredentialPresentation.claim credential) !! "origin"
       = Some (VString origin)
    /\ truthy_string didUri || truthy_string origin = true
    /\ Did_validateUri didUri = true
    /\ validUrl_isUri origin = true
    /\ Did_verifyDidSignature "assertionMethod"
         {| DidSignature.keyUri :=
              ClaimerSignature.keyUri
                (ICredentialPresentation.claimerSignature credential);
            DidSignature.signature :=
              ClaimerSignature.signature
                (ICredentialPresentation.claimerSignature credential) |}
         (Crypto_coToUInt8 (ICredentialPresentation.rootHash credential))
       = true
    /\ envelope =
       {| VerifiableDomainLinkagePresentation.context := DID_CONFIGURATION_CONTEXT;
          VerifiableDomainLinkagePresentation.linked_dids :=
            [ {| DomainLinkageCredential.context :=
                   [DID_VC_CONTEXT; DID_CONFIGURATION_CONTEXT];
                 DomainLinkageCredential.id :=
                   toCredentialIRI (ICredentialPresentation.rootHash credential);
                 DomainLinkageCredential.issuer := didUri;
                 DomainLinkageCredential.issuanceDate :=
                   Date_toISOString
                     (clock (snd (defaultExpirationDate clock expirationDate)));
                 DomainLinkageCredential.expirationDate :=
                   fst (defaultExpirationDate clock expirationDate);
                 DomainLinkageCredential.type :=
                   [ DEFAULT_VERIFIABLECREDENTIAL_TYPE; "DomainLinkageCredential";
                     KILT_VERIFIABLECREDENTIAL_TYPE ];
                 DomainLinkageCredential.credentialSubject :=
                   {| CredentialSubject.id := didUri;
                      CredentialSubject.origin := origin;
                      CredentialSubject.rootHash := None |};
                 DomainLinkageCredential.proof :=
                   {| SelfSignedProof.type := KILT_SELF_SIGNED_PROOF_TYPE;
                      SelfSignedProof.proofPurpose := "assertionMethod";
                      SelfSignedProof.verificationMethod :=
                        ClaimerSignature.keyUri
                          (ICredentialPresentation.claimerSignature credential);
                      SelfSignedProof.signature :=
                        ClaimerSignature.signature
                          (ICredentialPresentation.claimerSignature credential);
                      SelfSignedProof.challenge :=
                        ClaimerSignature.challenge
                          (ICredentialPresentation.claimerSignature credential)
                   |} |} ] |}.
Proof.
  unfold getDomainLinkagePresentation.
  destruct (defaultExpirationDate clock expirationDate) as [expiration reads].
  destruct (Claim.owner _) as [didUri|] eqn:Howner.
  2:{ cbn [truthy_opt_string negb andb validateOwner mbind Settled_bind].
      destruct (negb _); discriminate. }
  destruct (Claim.contents _ !! "origin") as [[origin| | |]|] eqn:Horigin;
    cbn [truthy_opt_string truthy validateOwner];
    try (destruct (_ && _); [discriminate|];
         destruct (Did_validateUri didUri); discriminate).
  destruct (truthy_string didUri) eqn:Hdid;
    destruct (truthy_string origin) eqn:Horiginfalsy;
    cbn [negb andb]; try discriminate;
    (destruct (Did_validateUri didUri) eqn:Hvalid; [|discriminate]);
    cbn [mbind Settled_bind];
    (destruct (validUrl_isUri origin) eqn:Huri; [|discriminate]);
    cbn [negb];
    (destruct (Did_verifyDidSignature _ _ _) eqn:Hsigned; [|discriminate]);
    cbn [negb]; intros Henvelope; inversion Henvelope; subst; clear Henvelope;
    exists didUri, origin; cbn [fst snd];
    repeat split;
    first [reflexivity | assumption | rewrite Hdid, Horiginfalsy; reflexivity].
Qed.

(** The conditions under which the assembler goes through. *)
Lemma getDomainLinkagePresentation_accepts
    (clock : Clock) (credential : ICredentialPresentation.t)
    (expirationDate : option string) (didUri : DidUri) (origin : string) :
  Claim.owner (ICredentialPresentation.claim credential) = Some didUri ->
  Claim.contents (ICredentialPresentation.claim credential) !! "origin"
    = Some (VString origin) ->
  truthy_string didUri || truthy_string origin = true ->
  Did_validateUri didUri = true ->
  validUrl_isUri origin = true ->
  Did_verifyDidSignature "assertionMethod"
    {| DidSignature.keyUri :=
         ClaimerSignature.keyUri
           (ICredentialPresentation.claimerSignature credential);
       DidSignature.signature :=
         ClaimerSignature.signature
           (ICredentialPresentation.claimerSignature credential) |}
    (Crypto_coToUInt8 (ICredentialPresentation.rootHash credential)) = true ->
  exists envelope : VerifiableDomainLinkagePresentation.t,
    getDomainLinkagePresentation clock credential expirationDate
      = Resolved envelope.
Proof.
  intros Howner Horigin Hnonempty Hvalid Huri Hsigned.
  unfold getDomainLinkagePresentation.
  destruct (defaultExpirationDate clock expirationDate) as [expiration reads].
  rewrite Howner, Horigin.
  cbn [truthy_opt_string truthy validateOwner].
  rewrite <- negb_orb, Hnonempty, Hvalid. cbn [negb mbind Settled_bind].
  rewrite Huri. cbn [negb]. rewrite Hsigned. cbn [negb].
  eexists. reflexivity.
Qed.

(** X5: a presentation is accepted exactly when its claim has an owner that
    is a syntactically valid DID, its [origin] is a string that is a valid
    URL, not both of them empty, and the verification primitive accepts the
    claimer signature over the root hash as an assertion-method signature.
    Neither the clock nor the expiration argument plays a part. *)
Theorem getDomainLinkagePresentation_Resolved_iff
    (clock : Clock) (credential : ICredentialPresentation.t)
    (expirationDate : option string) :
  (exists envelope : VerifiableDomainLinkagePresentation.t,
     getDomainLinkagePresentation clock credential expirationDate
       = Resolved envelope)
  <-> exists (didUri : DidUri) (origin : string),
        Claim.owner (ICredentialPresentation.claim credential) = Some didUri
        /\ Claim.contents (ICredentialPresentation.claim credential) !! "origin"
           = Some (VString origin)
        /\ truthy_string didUri || truthy_string origin = true
        /\ Did_validateUri didUri = true
        /\ validUrl_isUri origin = true
        /\ Did_verifyDidSignature "assertionMethod"
             {| DidSignature.keyUri :=
                  ClaimerSignature.keyUri
                    (ICredentialPresentation.claimerSignature credential);
                DidSignature.signature :=
                  ClaimerSignature.signature
                    (ICredentialPresentation.claimerSignature credential) |}
             (Crypto_coToUInt8 (ICredentialPresentation.rootHash credential))
           = true.
Proof.
  split.
  - intros [envelope Haccepted].
    apply getDomainLinkagePresentation_accepted in Haccepted
      as (didUri & origin & Howner & Horigin & Hnonempty & Hvalid & Huri
          & Hsigned & _).
    exists didUri, origin. now repeat split.
  - intros (didUri & origin & Howner & Horigin & Hnonempty & Hvalid & Huri
            & Hsigned).
    now apply getDomainLinkagePresentation_accepts
      with (didUri := didUri) (origin := origin).
Qed.

(** X6: every envelope the assembler emits holds exactly one linked
    credential; it is self-issued (its issuer is its subject, the owner of the
    claim), carries the two contexts and the three types in their fixed order,
    and its proof is a [KILTSelfSigned2020] proof for [assertionMethod] that
    copies the claimer signature's key URI, signature and challenge. *)
Theorem getDomainLinkagePresentation_envelope_shape
    (clock : Clock) (credential : ICredentialPresentation.t)
    (expirationDate : option string)
    (envelope : VerifiableDomainLinkagePresentation.t) :
  getDomainLinkagePresentation clock credential expirationDate
    = Resolved envelope ->
  VerifiableDomainLinkagePresentation.context envelope = DID_CONFIGURATION_CONTEXT
  /\ length (VerifiableDomainLinkagePresentation.linked_dids envelope) = 1%nat
  /\ Forall
       (fun entry =>
          DomainLinkageCredential.issuer entry
            = CredentialSubject.id (DomainLinkageCredential.credentialSubject entry)
          /\ Claim.owner (ICredentialPresentation.claim credential)
             = Some (DomainLinkageCredential.issuer entry)
          /\ DomainLinkageCredential.context entry
             = [DID_VC_CONTEXT; DID_CONFIGURATION_CONTEXT]
          /\ DomainLinkageCredential.type entry
             = [ DEFAULT_VERIFIABLECREDENTIAL_TYPE; "DomainLinkageCredential";
                 KILT_VERIFIABLECREDENTIAL_TYPE ]
          /\ SelfSignedProof.type (DomainLinkageCredential.proof entry)
             = KILT_SELF_SIGNED_PROOF_TYPE
          /\ SelfSignedProof.proofPurpose (DomainLinkageCredential.proof entry)
             = "assertionMethod"
          /\ SelfSignedProof.verificationMethod (DomainLinkageCredential.proof entry)
             = ClaimerSignature.keyUri
                 (ICredentialPresentation.claimerSignature credential)
          /\ SelfSignedProof.signature (DomainLinkageCredential.proof entry)
             = ClaimerSignature.signature
                 (ICredentialPresentation.claimerSignature credential)
          /\ SelfSignedProof.challenge (DomainLinkageCredential.proof entry)
             = ClaimerSignature.challenge
                 (ICredentialPresentation.claimerSignature credential))
       (VerifiableDomainLinkagePresentation.linked_dids envelope).
Proof.
  intros Haccepted.
  apply getDomainLinkagePresentation_accepted in Haccepted
    as (didUri & origin & Howner & _ & _ & _ & _ & _ & ->).
  cbn. split; [reflexivity|]. split; [reflexivity|].
  constructor; [|constructor]. now repeat split.
Qed.

(** X7: an expiration date the caller supplies is emitted as it is, whatever
    string it is (it is not parsed, nor compared with the issuance date), and
    the issuance date is then the first and only reading of the clock. *)
Theorem getDomainLinkagePresentation_supplied_expirationDate
    (clock : Clock) (credential : ICredentialPresentation.t)
    (expirationDate : string)
    (envelope : VerifiableDomainLinkagePresentation.t) :
  getDomainLinkagePresentation clock credential (Some expirationDate)
    = Resolved envelope ->
  map DomainLinkageCredential.expirationDate
      (VerifiableDomainLinkagePresentation.linked_dids envelope)
    = [expirationDate]
  /\ map DomainLinkageCredential.issuanceDate
         (VerifiableDomainLinkagePresentation.linked_dids envelope)
     = [Date_toISOString (clock 0%nat)]
  /\ forall other : string,
       exists envelope' : VerifiableDomainLinkagePresentation.t,
         getDomainLinkagePresentation clock credential (Some other)
           = Resolved envelope'
         /\ map DomainLinkageCredential.expirationDate
                (VerifiableDomainLinkagePresentation.linked_dids envelope')
            = [other].
Proof.
  intros Haccepted.
  apply getDomainLinkagePresentation_accepted in Haccepted
    as (didUri & origin & Howner & Horigin & Hnonempty & Hvalid & Huri
        & Hsigned & ->).
  cbn. split; [reflexivity|]. split; [reflexivity|].
  intros other.
  destruct (getDomainLinkagePresentation_accepts clock credential (Some other)
              didUri origin Howner Horigin Hnonempty Hvalid Huri Hsigned)
    as [envelope' Haccepted'].
  exists envelope'. split; [exact Haccepted'|].
  apply getDomainLinkagePresentation_accepted in Haccepted'
    as (didUri' & origin' & _ & _ & _ & _ & _ & _ & ->).
  reflexivity.
Qed.

(** X8: overwriting the claimer signature of an accepted presentation with a
    signature the verification primitive does not accept (the integration
    test writes ['0x']) makes assembly fail with the signature error. *)
Theorem getDomainLinkagePresentation_tampered_signature
    (clock : Clock) (credential : ICredentialPresentation.t)
    (expirationDate : option string) (signature : string)
    (envelope : VerifiableDomainLinkagePresentation.t) :
  getDomainLinkagePresentation clock credential expirationDate
    = Resolved envelope ->
  Did_verifyDidSignature "assertionMethod"
    {| DidSignature.keyUri :=
         ClaimerSignature.keyUri
           (ICredentialPresentation.claimerSignature credential);
       DidSignature.signature := signature |}
    (Crypto_coToUInt8 (ICredentialPresentation.rootHash credential)) = false ->
  getDomainLinkagePresentation clock
    (setClaimerSignature signature credential) expirationDate
  = Rejected SignatureVerificationError.
Proof.
  intros Haccepted Hrejected.
  apply getDomainLinkagePresentation_accepted in Haccepted
    as (didUri & origin & Howner & Horigin & Hnonempty & Hvalid & Huri & _ & _).
  unfold getDomainLinkagePresentation.
  destruct (defaultExpirationDate clock expirationDate) as [expiration reads].
  cbn [setClaimerSignature ICredentialPresentation.claim
       ICredentialPresentation.rootHash ICredentialPresentation.claimerSignature
       ClaimerSignature.keyUri ClaimerSignature.signature].
  rewrite Howner, Horigin.
  cbn [truthy_opt_string truthy validateOwner].
  rewrite <- negb_orb, Hnonempty, Hvalid. cbn [negb mbind Settled_bind].
  rewrite Huri. cbn [negb]. rewrite Hrejected. reflexivity.
Qed.

(** X9: the assembler reads four things of a presentation: the owner of the
    claim, the [origin] of its contents, the root hash and the claimer
    signature.  Two presentations that agree on them are treated alike: the
    schema hash, the other contents, the claim hashes, the nonce map, the
    legitimations and the delegation are neither checked nor copied. *)
Theorem getDomainLinkagePresentation_reads_only
    (clock : Clock) (credential other : ICredentialPresentation.t)
    (expirationDate : option string) :
  Claim.owner (ICredentialPresentation.claim credential)
    = Claim.owner (ICredentialPresentation.claim other) ->
  Claim.contents (ICredentialPresentation.claim credential) !! "origin"
    = Claim.contents (ICredentialPresentation.claim other) !! "origin" ->
  ICredentialPresentation.rootHash credential
    = ICredentialPresentation.rootHash other ->
  ICredentialPresentation.claimerSignature credential
    = ICredentialPresentation.claimerSignature other ->
  getDomainLinkagePresentation clock credential expirationDate
  = getDomainLinkagePresentation clock other expirationDate.
Proof.
  intros Howner Horigin Hroot Hsignature.
  unfold getDomainLinkagePresentation.
  rewrite Howner, Horigin, Hroot, Hsignature. reflexivity.
Qed.

End AssemblerProperties.

(** ** How issuance, assembly and verification compose *)

Section Compositions.
Context `{Platform}.

Lemma verifyDidConfigPresentation_single
    (didUri : DidUri) (origin context : string)
    (credential : DomainLinkageCredential.t) :
  verifyDidConfigPresentation didUri
    {| VerifiableDomainLinkagePresentation.context := context;
       VerifiableDomainLinkagePresentation.linked_dids := [credential] |}
    origin
  = [verifyCredential didUri origin credential].
Proof.
  unfold verifyDidConfigPresentation. rewrite asyncSome_unfold. simpl.
  destruct (verifyCredential didUri origin credential) as [[]|e]; reflexivity.
Qed.

(** X10: an envelope the assembler emitted verifies, against the owner and the
    origin of the claim it was assembled from, exactly when the owner resolves
    to a document whose first assertion key has a non-empty id: the signature
    the assembler verified is the one the verifier verifies, over the same
    root hash. *)
Theorem assembled_envelope_verifies_iff
    (clock : Clock) (credential : ICredentialPresentation.t)
    (expirationDate : option string)
    (envelope : VerifiableDomainLinkagePresentation.t) :
  getDomainLinkagePresentation clock credential expirationDate
    = Resolved envelope ->
  exists (didUri : DidUri) (origin : string),
    Claim.owner (ICredentialPresentation.claim credential) = Some didUri
    /\ Claim.contents (ICredentialPresentation.claim credential) !! "origin"
       = Some (VString origin)
    /\ (verifyDidConfigPresentation didUri envelope origin = [Resolved tt]
        <-> exists (document : DidDocument.t) (key : DidKey.t)
                   (keys : list DidKey.t),
              Did_resolve didUri ≫= DidResolutionResult.document = Some document
              /\ DidDocument.assertionMethod document = Some (key :: keys)
              /\ truthy_string (DidKey.id key) = true).
Proof.
  intros Haccepted.
  apply getDomainLinkagePresentation_accepted in Haccepted
    as (didUri & origin & Howner & Horigin & _ & Hvalid & Huri & Hsigned & ->).
  exists didUri, origin. split; [exact Howner|]. split; [exact Horigin|].
  rewrite verifyDidConfigPresentation_single.
  rewrite verifyCredential_after_checks by (now repeat split).
  cbn [DomainLinkageCredential.id DomainLinkageCredential.proof
       SelfSignedProof.verificationMethod SelfSignedProof.signature].
  rewrite fromCredentialIRI_toCredentialIRI, Hsigned. cbn [negb].
  split.
  - intros Hrun.
    destruct (Did_resolve didUri ≫= DidResolutionResult.document)
      as [document|]; [|discriminate].
    unfold firstAssertionKeyId in Hrun.
    destruct (DidDocument.assertionMethod document) as [[|key keys]|] eqn:Hkeys;
      try discriminate.
    cbn [lookup list_lookup mbind Settled_bind truthy_opt_string] in Hrun.
    destruct (truthy_string (DidKey.id key)) eqn:Hkeyid; [|discriminate].
    now exists document, key, keys.
  - intros (document & key & keys & Hresolve & Hkeys & Hkeyid).
    rewrite Hresolve. unfold firstAssertionKeyId. rewrite Hkeys.
    cbn [lookup list_lookup mbind Settled_bind truthy_opt_string].
    rewrite Hkeyid. reflexivity.
Qed.

(** X11: an envelope the assembler emitted never verifies against another DID
    than the owner of the claim: the call is rejected with the DID-mismatch
    error, whatever the origin and whatever that other DID resolves to. *)
Theorem assembled_envelope_other_did
    (clock : Clock) (credential : ICredentialPresentation.t)
    (expirationDate : option string)
    (envelope : VerifiableDomainLinkagePresentation.t)
    (didUri : DidUri) (origin : string) :
  getDomainLinkagePresentation clock credential expirationDate
    = Resolved envelope ->
  Claim.owner (ICredentialPresentation.claim credential) <> Some didUri ->
  verifyDidConfigPresentation didUri envelope origin
  = [Rejected DidMismatchError].
Proof.
  intros Haccepted Hother.
  apply getDomainLinkagePresentation_accepted in Haccepted
    as (owner & claimed & Howner & _ & _ & _ & _ & _ & ->).
  rewrite verifyDidConfigPresentation_single.
  rewrite verifyCredential_did_mismatch; [reflexivity|].
  cbn. congruence.
Qed.

(** X12: an envelope the assembler emitted never verifies for another origin
    than the one of the claim: against the owner of the claim and another
    origin the call is rejected with the origin-mismatch error. *)
Theorem assembled_envelope_other_origin
    (clock : Clock) (credential : ICredentialPresentation.t)
    (expirationDate : option string)
    (envelope : VerifiableDomainLinkagePresentation.t)
    (didUri : DidUri) (origin : string) :
  getDomainLinkagePresentation clock credential expirationDate
    = Resolved envelope ->
  Claim.owner (ICredentialPresentation.claim credential) = Some didUri ->
  Claim.contents (ICredentialPresentation.claim credential) !! "origin"
    <> Some (VString origin) ->
  verifyDidConfigPresentation didUri envelope origin
  = [Rejected OriginMismatchError].
Proof.
  intros Haccepted Howner Horigin.
  apply getDomainLinkagePresentation_accepted in Haccepted
    as (owner & claimed & Howner' & Hclaimed & _ & Hvalid & _ & _ & ->).
  assert (owner = didUri) as -> by congruence.
  rewrite verifyDidConfigPresentation_single.
  unfold verifyCredential.
  cbn [DomainLinkageCredential.issuer DomainLinkageCredential.credentialSubject
       CredentialSubject.id CredentialSubject.origin].
  rewrite String.eqb_refl, Hvalid. cbn [negb].
  assert (Heqb : String.eqb origin claimed = false).
  { apply String.eqb_neq. intros ->. now apply Horigin. }
  rewrite Heqb. reflexivity.
Qed.

(** X13: overwriting the proof signature of an emitted envelope with one the
    verification primitive does not accept (the integration test writes
    ['0x']) makes verification fail with the signature error, for an owner
    that resolves to a document with an assertion key. *)
Theorem assembled_envelope_tampered_proof
    (clock : Clock) (credential : ICredentialPresentation.t)
    (expirationDate : option string)
    (envelope : VerifiableDomainLinkagePresentation.t)
    (didUri : DidUri) (origin signature : string) (document : DidDocument.t) :
  getDomainLinkagePresentation clock credential expirationDate
    = Resolved envelope ->
  Claim.owner (ICredentialPresentation.claim credential) = Some didUri ->
  Claim.contents (ICredentialPresentation.claim credential) !! "origin"
    = Some (VString origin) ->
  Did_resolve didUri ≫= DidResolutionResult.document = Some document ->
  exposesAssertionKey document ->
  Did_verifyDidSignature "assertionMethod"
    {| DidSignature.keyUri :=
         ClaimerSignature.keyUri
           (ICredentialPresentation.claimerSignature credential);
       DidSignature.signature := signature |}
    (Crypto_coToUInt8 (ICredentialPresentation.rootHash credential)) = false ->
  verifyDidConfigPresentation didUri
    {| VerifiableDomainLinkagePresentation.context :=
         VerifiableDomainLinkagePresentation.context envelope;
       VerifiableDomainLinkagePresentation.linked_dids :=
         map (setProofSignature signature)
             (VerifiableDomainLinkagePresentation.linked_dids envelope) |}
    origin
  = [Rejected SignatureVerificationError].
Proof.
  intros Haccepted Howner Horigin Hresolve (key & keys & Hkeys & Hkeyid)
         Hrejected.
  apply getDomainLinkagePresentation_accepted in Haccepted
    as (owner & claimed & Howner' & Hclaimed & _ & Hvalid & Huri & _ & ->).
  assert (owner = didUri) as -> by congruence.
  assert (claimed = origin) as -> by congruence.
  cbn [VerifiableDomainLinkagePresentation.linked_dids
       VerifiableDomainLinkagePresentation.context map].
  rewrite verifyDidConfigPresentation_single.
  rewrite verifyCredential_after_checks by (now repeat split).
  rewrite Hresolve. unfold firstAssertionKeyId. rewrite Hkeys.
  cbn [lookup list_lookup mbind Settled_bind truthy_opt_string].
  rewrite Hkeyid.
  cbn [negb setProofSignature DomainLinkageCredential.id
       DomainLinkageCredential.proof SelfSignedProof.verificationMethod
       SelfSignedProof.signature].
  rewrite fromCredentialIRI_toCredentialIRI, Hrejected. reflexivity.
Qed.

End Compositions.

(** ** Issuance *)

Section IssuanceProperties.
Context `{Platform}.

(** X14: for a DID that resolves and a valid origin, a document without an
    [assertionMethod] property and a document whose [assertionMethod] is the
    empty list are both refused with the missing-assertion-key error: here
    the absent first key is tested before it is used. *)
Theorem createCredential_missing_assertion_key
    (signCallback : SignCallback) (origin : string) (didUri : DidUri)
    (document : DidDocument.t) :
  Did_resolve didUri ≫= DidResolutionResult.document = Some document ->
  validUrl_isUri origin = true ->
  DidDocument.assertionMethod document = None
  \/ DidDocument.assertionMethod document = Some [] ->
  createCredential signCallback origin didUri
  = Rejected MissingAssertionKeyError.
Proof.
  intros Hresolve Horigin [Hkeys|Hkeys]; unfold createCredential;
    rewrite Hresolve, Horigin, Hkeys; reflexivity.
Qed.

(** What a successful issuance says about its inputs. *)
Lemma createCredential_Resolved_inv
    (signCallback : SignCallback) (origin : string) (didUri : DidUri)
    (credential : ICredentialPresentation.t) :
  createCredential signCallback origin didUri = Resolved credential ->
  exists (document : DidDocument.t) (key : DidKey.t) (keys : list DidKey.t),
    Did_resolve didUri ≫= DidResolutionResult.document = Some document
    /\ validUrl_isUri origin = true
    /\ DidDocument.assertionMethod document = Some (key :: keys)
    /\ credential =
       Credential_createPresentation
         (Credential_fromClaim
            (Claim_fromCTypeAndClaimContents ctypeDomainLinkage
               {[ "origin" := VString origin ]} (DidDocument.uri document)))
         signCallback.
Proof.
  unfold createCredential.
  destruct (Did_resolve didUri ≫= DidResolutionResult.document)
    as [document|]; [|discriminate].
  destruct (validUrl_isUri origin); [|discriminate]. cbn [negb].
  destruct (DidDocument.assertionMethod document) as [[|key keys]|] eqn:Hkeys;
    try discriminate.
  cbn [mbind option_bind lookup list_lookup].
  intros Hissued. inversion Hissued; subst.
  exists document, key, keys. now repeat split.
Qed.


(** X16: the claim of an issued presentation is owned by the [uri] of the
    resolved document, not by the DID the caller passed, is scoped to the
    domain-linkage schema and holds [origin] and nothing else; the
    presentation has no legitimations, no delegation and no challenge. *)
Theorem createCredential_claim
    (signCallback : SignCallback) (origin : string) (didUri : DidUri)
    (credential : ICredentialPresentation.t) :
  createCredential signCallback origin didUri = Resolved credential ->
  exists document : DidDocument.t,
    Did_resolve didUri ≫= DidResolutionResult.document = Some document
    /\ Claim.owner (ICredentialPresentation.claim credential)
       = Some (DidDocument.uri document)
    /\ Claim.cTypeHash (ICredentialPresentation.claim credential)
       = CType.hash ctypeDomainLinkage
    /\ (forall property : string,
          Claim.contents (ICredentialPresentation.claim credential) !! property
          = if String.eqb property "origin" then Some (VString origin) else None)
    /\ ICredentialPresentation.legitimations credential = []
    /\ ICredentialPresentation.delegationId credential = None
    /\ ClaimerSignature.challenge
         (ICredentialPresentation.claimerSignature credential) = None.
Proof.
  intros Hissued.
  apply createCredential_Resolved_inv in Hissued
    as (document & key & keys & Hresolve & _ & _ & ->).
  exists document. split; [exact Hresolve|]. cbn.
  repeat split.
  intros property. destruct (String.eqb property "origin") eqn:Hproperty.
  - apply String.eqb_eq in Hproperty as ->. apply lookup_singleton_eq.
  - apply String.eqb_neq in Hproperty. apply lookup_singleton_ne. congruence.
Qed.

(** X17: after a successful issuance with a non-empty origin, assembly can
    fail in two ways only: with the invalid-DID error when the [uri] of the
    resolved document is not a valid DID, and with the signature error when
    the verification primitive does not accept what the signing capability
    returned; otherwise it yields an envelope. *)
Theorem issue_then_assemble
    (signCallback : SignCallback) (origin : string) (didUri : DidUri)
    (credential : ICredentialPresentation.t) (document : DidDocument.t)
    (clock : Clock) (expirationDate : option string) :
  createCredential signCallback origin didUri = Resolved credential ->
  Did_resolve didUri ≫= DidResolutionResult.document = Some document ->
  truthy_string origin = true ->
  getDomainLinkagePresentation clock credential expirationDate
    = Rejected InvalidDidError
    /\ Did_validateUri (DidDocument.uri document) = false
  \/ getDomainLinkagePresentation clock credential expirationDate
       = Rejected SignatureVerificationError
     /\ Did_validateUri (DidDocument.uri document) = true
     /\ Did_verifyDidSignature "assertionMethod"
          {| DidSignature.keyUri :=
               ClaimerSignature.keyUri
                 (ICredentialPresentation.claimerSignature credential);
             DidSignature.signature :=
               ClaimerSignature.signature
                 (ICredentialPresentation.claimerSignature credential) |}
          (Crypto_coToUInt8 (ICredentialPresentation.rootHash credential))
        = false
  \/ (exists envelope : VerifiableDomainLinkagePresentation.t,
        getDomainLinkagePresentation clock credential expirationDate
          = Resolved envelope)
     /\ Did_validateUri (DidDocument.uri document) = true
     /\ Did_verifyDidSignature "assertionMethod"
          {| DidSignature.keyUri :=
               ClaimerSignature.keyUri
                 (ICredentialPresentation.claimerSignature credential);
             DidSignature.signature :=
               ClaimerSignature.signature
                 (ICredentialPresentation.claimerSignature credential) |}
          (Crypto_coToUInt8 (ICredentialPresentation.rootHash credential))
        = true.
Proof.
  intros Hissued Hresolve Hnonempty.
  apply createCredential_Resolved_inv in Hissued
    as (document' & key & keys & Hresolve' & Horigin & _ & ->).
  assert (document' = document) as -> by congruence.
  unfold getDomainLinkagePresentation.
  destruct (defaultExpirationDate clock expirationDate) as [expiration reads].
  cbn [Credential_createPresentation Credential_fromClaim
       Claim_fromCTypeAndClaimContents
       ICredentialPresentation.claim ICredentialPresentation.rootHash
       ICredentialPresentation.claimerSignature
       ICredential.claim ICredential.rootHash
       Claim.owner Claim.contents
       ClaimerSignature.keyUri ClaimerSignature.signature
       truthy_opt_string validateOwner].
  rewrite lookup_singleton_eq. cbn [truthy]. rewrite Hnonempty.
  rewrite andb_false_r.
  destruct (Did_validateUri (DidDocument.uri document)) eqn:Hvalid;
    [|left; split; reflexivity].
  cbn [mbind Settled_bind]. rewrite Horigin. cbn [negb].
  destruct (Did_verifyDidSignature _ _ _) eqn:Hsigned; cbn [negb].
  - right. right. split; [eexists; reflexivity|]. split; reflexivity.
  - right. left. split; [reflexivity|]. split; reflexivity.
Qed.

(** X18: the owner of the issued claim is the [uri] of the resolved document,
    and the verifier compares the subject with the DID it is given.  When the
    resolver answers a DID with a document that has another [uri], the
    envelope assembled from the issued presentation is rejected by a
    verification against the DID that was used to issue it, with the
    DID-mismatch error. *)
Theorem roundtrip_other_document_uri
    (signCallback : SignCallback) (origin : string) (didUri : DidUri)
    (document : DidDocument.t) (credential : ICredentialPresentation.t)
    (clock : Clock) (expirationDate : option string)
    (envelope : VerifiableDomainLinkagePresentation.t) :
  Did_resolve didUri ≫= DidResolutionResult.document = Some document ->
  DidDocument.uri document <> didUri ->
  createCredential signCallback origin didUri = Resolved credential ->
  getDomainLinkagePresentation clock credential expirationDate
    = Resolved envelope ->
  verifyDidConfigPresentation didUri envelope origin
  = [Rejected DidMismatchError].
Proof.
  intros Hresolve Huri Hissued Haccepted.
  apply createCredential_Resolved_inv in Hissued
    as (document' & key & keys & Hresolve' & _ & _ & ->).
  assert (document' = document) as -> by congruence.
  apply getDomainLinkagePresentation_accepted in Haccepted
    as (owner & claimed & Howner & _ & _ & _ & _ & _ & ->).
  cbn in Howner. inversion Howner; subst owner.
  rewrite verifyDidConfigPresentation_single.
  now rewrite verifyCredential_did_mismatch.
Qed.

End IssuanceProperties.

(** ** The signing capability of the test utilities *)

(** X19: [assertionSigner] refuses only a document without an
    [assertionMethod] property.  For a document whose [assertionMethod] is
    the empty list it hands out a callback all the same, and every call of
    that callback throws a [TypeError]; for a document with a first assertion
    key every call answers with the signature of the request's data, key type
    [sr25519] and the key URI made of the document's [uri] and the key's
    [id]. *)
Theorem assertionSigner_callback
    (sign : list Byte.byte -> string) (didDocument : DidDocument.t)
    (callback : FallibleSignCallback) :
  assertionSigner sign didDocument = Resolved callback ->
  DidDocument.assertionMethod didDocument <> None
  /\ forall request : SignRequestData.t,
       (DidDocument.assertionMethod didDocument = Some []
        /\ callback request = Rejected TypeError)
       \/ exists (key : DidKey.t) (keys : list DidKey.t),
            DidDocument.assertionMethod didDocument = Some (key :: keys)
            /\ callback request
               = Resolved
                   {| SignResponseData.signature :=
                        sign (SignRequestData.data request);
                      SignResponseData.keyType := "sr25519";
                      SignResponseData.keyUri :=
                        DidDocument.uri didDocument +:+ DidKey.id key |}.
Proof.
  unfold assertionSigner.
  destruct (DidDocument.assertionMethod didDocument) as [[|key keys]|];
    [| |discriminate]; intros Hsigner; inversion Hsigner; subst;
    (split; [discriminate|]); intros request.
  - left. split; reflexivity.
  - right. exists key, keys. split; reflexivity.
Qed.

(** [assertionSigner] fails exactly on a document without the property. *)
Lemma assertionSigner_Rejected_iff
    (sign : list Byte.byte -> string) (didDocument : DidDocument.t) (e : Error) :
  assertionSigner sign didDocument = Rejected e
  <-> DidDocument.assertionMethod didDocument = None
      /\ e = MissingAssertionKeyError.
Proof.
  unfold assertionSigner.
  destruct (DidDocument.assertionMethod didDocument) as [keys|].
  - split; [discriminate | intros [? _]; discriminate].
  - split.
    + intros Hsigner. inversion Hsigner. split; reflexivity.
    + intros [_ ->]. reflexivity.
Qed.

Section SignerAndIssuance.
Context `{Platform}.

(** X20: a presentation issued with the capability [assertionSigner] built
    for a document is signed under the key URI made of that document's [uri]
    and the [id] of its first assertion key, and its claimer signature is the
    signature of the bytes of its root hash. *)
Theorem createCredential_with_assertionSigner
    (sign : list Byte.byte -> string) (didDocument : DidDocument.t)
    (callback : FallibleSignCallback) (signCallback : SignCallback)
    (origin : string) (didUri : DidUri)
    (credential : ICredentialPresentation.t) :
  assertionSigner sign didDocument = Resolved callback ->
  (forall request, callback request = Resolved (signCallback request)) ->
  createCredential signCallback origin didUri = Resolved credential ->
  exists (key : DidKey.t) (keys : list DidKey.t),
    DidDocument.assertionMethod didDocument = Some (key :: keys)
    /\ ClaimerSignature.keyUri
         (ICredentialPresentation.claimerSignature credential)
       = DidDocument.uri didDocument +:+ DidKey.id key
    /\ ClaimerSignature.signature
         (ICredentialPresentation.claimerSignature credential)
       = sign (Crypto_coToUInt8 (ICredentialPresentation.rootHash credential)).
Proof.
  intros Hsigner Htotal Hissued.
  unfold createCredential in Hissued.
  destruct (Did_resolve didUri ≫= DidResolutionResult.document)
    as [document|]; [|discriminate].
  destruct (validUrl_isUri origin); [|discriminate]. cbn [negb] in Hissued.
  destruct (DidDocument.assertionMethod document ≫= _); [|discriminate].
  inversion Hissued; subst; clear Hissued.
  unfold assertionSigner in Hsigner.
  destruct (DidDocument.assertionMethod didDocument) as [[|key keys]|];
    [| |discriminate]; inversion Hsigner; subst; clear Hsigner.
  - specialize (Htotal
      {| SignRequestData.data := [];
         SignRequestData.did := None;
         SignRequestData.keyRelationship := "" |}).
    discriminate.
  - exists key, keys. split; [reflexivity|].
    cbn [Credential_createPresentation ICredentialPresentation.claimerSignature
         ICredentialPresentation.rootHash ClaimerSignature.keyUri
         ClaimerSignature.signature].
    match goal with
    | |- context [signCallback ?request] =>
        pose proof (Htotal request) as Hcall;
        set (response := signCallback request) in *
    end.
    cbn [lookup list_lookup SignRequestData.data] in Hcall.
    injection Hcall as Hresponse. rewrite <- Hresponse.
    split; reflexivity.
Qed.

End SignerAndIssuance.

(** ** The further properties on the concrete platform *)

(** Witness of X2: the envelope assembled for [alice], verified for [bob]. *)
Lemma verifyDidConfigPresentation_did_mismatch_witness :
  verifyCredential (H := Demo.platform) Demo.bob Demo.origin
    (Demo.linked Demo.alice Demo.alice) = Rejected DidMismatchError
  /\ Forall (fun settlement => exists e, settlement = Rejected e)
       (verifyDidConfigPresentation (H := Demo.platform) Demo.bob
          (Demo.envelope [Demo.linked Demo.alice Demo.alice]) Demo.origin)
  /\ (VerifiableDomainLinkagePresentation.linked_dids
        (Demo.envelope [Demo.linked Demo.alice Demo.alice])
      = [Demo.linked Demo.alice Demo.alice]
      -> verifyDidConfigPresentation (H := Demo.platform) Demo.bob
           (Demo.envelope [Demo.linked Demo.alice Demo.alice]) Demo.origin
         = [Rejected DidMismatchError]).
Proof.
  apply (verifyDidConfigPresentation_did_mismatch (H := Demo.platform)
           Demo.bob Demo.origin
           (Demo.envelope [Demo.linked Demo.alice Demo.alice])
           (Demo.linked Demo.alice Demo.alice)).
  - simpl. apply list_elem_of_singleton. reflexivity.
  - simpl. discriminate.
Defined.

(** Witness of X3: an entry that expired in 2001 is judged like the one
    assembled today. *)
Lemma verifyCredential_reads_only_witness :
  verifyCredential (H := Demo.platform) Demo.alice Demo.origin
    (Demo.linked Demo.alice Demo.alice)
  = verifyCredential (H := Demo.platform) Demo.alice Demo.origin Demo.expired.
Proof.
  apply (verifyCredential_reads_only (H := Demo.platform) Demo.alice
           Demo.origin (Demo.linked Demo.alice Demo.alice) Demo.expired);
    reflexivity.
Defined.

Example verifyDidConfigPresentation_demo_expired :
  verifyDidConfigPresentation (H := Demo.platform) Demo.alice
    (Demo.envelope [Demo.expired]) Demo.origin
  = [Resolved tt].
Proof. vm_compute. reflexivity. Qed.

(** Witness of X6. *)
Lemma getDomainLinkagePresentation_envelope_shape_witness :
  length (VerifiableDomainLinkagePresentation.linked_dids
            (Demo.envelope [Demo.linked Demo.alice Demo.alice])) = 1%nat
  /\ Forall (fun entry =>
               DomainLinkageCredential.issuer entry
               = CredentialSubject.id
                   (DomainLinkageCredential.credentialSubject entry))
            (VerifiableDomainLinkagePresentation.linked_dids
               (Demo.envelope [Demo.linked Demo.alice Demo.alice])).
Proof.
  destruct (getDomainLinkagePresentation_envelope_shape (H := Demo.platform)
              Demo.frozen Demo.credential None
              (Demo.envelope [Demo.linked Demo.alice Demo.alice]))
    as (_ & Hlength & Hentries).
  - vm_compute. reflexivity.
  - split; [exact Hlength|].
    eapply Forall_impl; [exact Hentries|].
    intros entry Hentry. exact (proj1 Hentry).
Defined.

(** Witness of X7: an expiration date that is no date. *)
Lemma getDomainLinkagePresentation_supplied_expirationDate_witness :
  exists envelope : VerifiableDomainLinkagePresentation.t,
    getDomainLinkagePresentation (H := Demo.platform) Demo.ticking
      Demo.credential (Some "never") = Resolved envelope
    /\ map DomainLinkageCredential.expirationDate
           (VerifiableDomainLinkagePresentation.linked_dids envelope)
       = ["never"]
    /\ map DomainLinkageCredential.issuanceDate
           (VerifiableDomainLinkagePresentation.linked_dids envelope)
       = ["2026-11-02T00:00:00.000Z"].
Proof.
  destruct (getDomainLinkagePresentation (H := Demo.platform) Demo.ticking
              Demo.credential (Some "never")) as [envelope|e] eqn:Haccepted;
    [|vm_compute in Haccepted; discriminate].
  exists envelope. split; [reflexivity|].
  destruct (getDomainLinkagePresentation_supplied_expirationDate
              (H := Demo.platform) Demo.ticking Demo.credential "never"
              envelope Haccepted) as (Hexpiration & Hissuance & _).
  split; [exact Hexpiration|]. rewrite Hissuance. vm_compute. reflexivity.
Defined.

(** Witness of X8: the signature ['0x']. *)
Lemma getDomainLinkagePresentation_tampered_signature_witness :
  getDomainLinkagePresentation (H := Demo.platform) Demo.frozen
    (setClaimerSignature "0x" Demo.credential) None
  = Rejected SignatureVerificationError.
Proof.
  apply (getDomainLinkagePresentation_tampered_signature (H := Demo.platform)
           Demo.frozen Demo.credential None "0x"
           (Demo.envelope [Demo.linked Demo.alice Demo.alice])).
  - vm_compute. reflexivity.
  - vm_compute. reflexivity.
Defined.

(** Witness of X9: a presentation under another schema, with other hashes, a
    delegation and a legitimation, is assembled like [Demo.credential]. *)
Lemma getDomainLinkagePresentation_reads_only_witness :
  getDomainLinkagePresentation (H := Demo.platform) Demo.frozen
    Demo.credential None
  = getDomainLinkagePresentation (H := Demo.platform) Demo.frozen
      Demo.otherSchema None.
Proof.
  apply (getDomainLinkagePresentation_reads_only (H := Demo.platform)
           Demo.frozen Demo.credential Demo.otherSchema None).
  - reflexivity.
  - vm_compute. reflexivity.
  - reflexivity.
  - reflexivity.
Defined.

(** Witness of X10. *)
Lemma assembled_envelope_verifies_iff_witness :
  exists (didUri : DidUri) (origin : string),
    Claim.owner (ICredentialPresentation.claim Demo.credential) = Some didUri
    /\ Claim.contents (ICredentialPresentation.claim Demo.credential) !! "origin"
       = Some (VString origin)
    /\ (verifyDidConfigPresentation (H := Demo.platform) didUri
          (Demo.envelope [Demo.linked Demo.alice Demo.alice]) origin
        = [Resolved tt]
        <-> exists (document : DidDocument.t) (key : DidKey.t)
                   (keys : list DidKey.t),
              Did_resolve (Platform := Demo.platform) didUri
                ≫= DidResolutionResult.document = Some document
              /\ DidDocument.assertionMethod document = Some (key :: keys)
              /\ truthy_string (DidKey.id key) = true).
Proof.
  apply (assembled_envelope_verifies_iff (H := Demo.platform) Demo.frozen
           Demo.credential None).
  vm_compute. reflexivity.
Defined.

(** Witness of X11: the envelope assembled for [alice], verified for [bob]. *)
Lemma assembled_envelope_other_did_witness :
  verifyDidConfigPresentation (H := Demo.platform) Demo.bob
    (Demo.envelope [Demo.linked Demo.alice Demo.alice]) Demo.origin
  = [Rejected DidMismatchError].
Proof.
  apply (assembled_envelope_other_did (H := Demo.platform) Demo.frozen
           Demo.credential None
           (Demo.envelope [Demo.linked Demo.alice Demo.alice])
           Demo.bob Demo.origin).
  - vm_compute. reflexivity.
  - simpl. discriminate.
Defined.

(** Witness of X12: the envelope assembled for [http://localhost:3927],
    verified for another origin. *)
Lemma assembled_envelope_other_origin_witness :
  verifyDidConfigPresentation (H := Demo.platform) Demo.alice
    (Demo.envelope [Demo.linked Demo.alice Demo.alice]) "https://example.org"
  = [Rejected OriginMismatchError].
Proof.
  apply (assembled_envelope_other_origin (H := Demo.platform) Demo.frozen
           Demo.credential None
           (Demo.envelope [Demo.linked Demo.alice Demo.alice])
           Demo.alice "https://example.org").
  - vm_compute. reflexivity.
  - reflexivity.
  - vm_compute. discriminate.
Defined.

(** Witness of X13: the proof signature ['0x']. *)
Lemma assembled_envelope_tampered_proof_witness :
  verifyDidConfigPresentation (H := Demo.platform) Demo.alice
    {| VerifiableDomainLinkagePresentation.context :=
         VerifiableDomainLinkagePresentation.context
           (Demo.envelope [Demo.linked Demo.alice Demo.alice]);
       VerifiableDomainLinkagePresentation.linked_dids :=
         map (setProofSignature "0x")
             (VerifiableDomainLinkagePresentation.linked_dids
                (Demo.envelope [Demo.linked Demo.alice Demo.alice])) |}
    Demo.origin
  = [Rejected SignatureVerificationError].
Proof.
  apply (assembled_envelope_tampered_proof (H := Demo.platform) Demo.frozen
           Demo.credential None
           (Demo.envelope [Demo.linked Demo.alice Demo.alice])
           Demo.alice Demo.origin "0x" Demo.aliceDocument).
  - vm_compute. reflexivity.
  - reflexivity.
  - vm_compute. reflexivity.
  - reflexivity.
  - exact Demo_exposesAssertionKey_alice.
  - vm_compute. reflexivity.
Defined.

(** Witness of X14: [carol]'s document has no [assertionMethod]. *)
Lemma createCredential_missing_assertion_key_witness :
  createCredential (H := Demo.platform) Demo.assertionSigner Demo.origin
    Demo.carol = Rejected MissingAssertionKeyError.
Proof.
  apply (createCredential_missing_assertion_key (H := Demo.platform)
           Demo.assertionSigner Demo.origin Demo.carol Demo.carolDocument).
  - reflexivity.
  - reflexivity.
  - left. reflexivity.
Defined.

Example createCredential_demo_empty_assertionMethod :
  createCredential (H := Demo.platform) Demo.assertionSigner Demo.origin
    Demo.bob = Rejected MissingAssertionKeyError.
Proof. vm_compute. reflexivity. Qed.

(** Witness of X16. *)
Lemma createCredential_claim_witness :
  exists document : DidDocument.t,
    Did_resolve (Platform := Demo.platform) Demo.alice
      ≫= DidResolutionResult.document = Some document
    /\ Claim.owner (ICredentialPresentation.claim Demo.credential)
       = Some (DidDocument.uri document)
    /\ Claim.cTypeHash (ICredentialPresentation.claim Demo.credential)
       = CType.hash ctypeDomainLinkage
    /\ (forall property : string,
          Claim.contents (ICredentialPresentation.claim Demo.credential)
            !! property
          = if String.eqb property "origin" then Some (VString Demo.origin)
            else None)
    /\ ICredentialPresentation.legitimations Demo.credential = []
    /\ ICredentialPresentation.delegationId Demo.credential = None
    /\ ClaimerSignature.challenge
         (ICredentialPresentation.claimerSignature Demo.credential) = None.
Proof.
  apply (createCredential_claim (H := Demo.platform) Demo.assertionSigner
           Demo.origin Demo.alice Demo.credential).
  vm_compute. reflexivity.
Defined.

(** Witness of X17, with a capability that is not bound to a key. *)
Lemma issue_then_assemble_witness :
  createCredential (H := Demo.platform) Demo.unboundSigner Demo.origin
    Demo.alice = Resolved (setClaimerSignature "0x" Demo.credential)
  /\ getDomainLinkagePresentation (H := Demo.platform) Demo.frozen
       (setClaimerSignature "0x" Demo.credential) None
     = Rejected SignatureVerificationError.
Proof.
  assert (Hissued :
    createCredential (H := Demo.platform) Demo.unboundSigner Demo.origin
      Demo.alice = Resolved (setClaimerSignature "0x" Demo.credential))
    by (vm_compute; reflexivity).
  split; [exact Hissued|].
  destruct (issue_then_assemble (H := Demo.platform) Demo.unboundSigner
              Demo.origin Demo.alice (setClaimerSignature "0x" Demo.credential)
              Demo.aliceDocument Demo.frozen None Hissued eq_refl eq_refl)
    as [[_ Hvalid]|[[Hrun _]|[_ [_ Hsigned]]]].
  - vm_compute in Hvalid. discriminate.
  - exact Hrun.
  - vm_compute in Hsigned. discriminate.
Defined.

(** Witness of X18: with a resolver that answers [alice]'s key URI with
    [alice]'s document, the round trip started from the key URI ends in the
    DID-mismatch error. *)
Lemma roundtrip_other_document_uri_witness :
  createCredential (H := Demo.canonicalising) Demo.assertionSigner Demo.origin
    Demo.aliceKeyUri = Resolved Demo.credential
  /\ getDomainLinkagePresentation (H := Demo.canonicalising) Demo.frozen
       Demo.credential None
     = Resolved (Demo.envelope [Demo.linked Demo.alice Demo.alice])
  /\ verifyDidConfigPresentation (H := Demo.canonicalising) Demo.aliceKeyUri
       (Demo.envelope [Demo.linked Demo.alice Demo.alice]) Demo.origin
     = [Rejected DidMismatchError].
Proof.
  assert (Hissued :
    createCredential (H := Demo.canonicalising) Demo.assertionSigner
      Demo.origin Demo.aliceKeyUri = Resolved Demo.credential)
    by (vm_compute; reflexivity).
  assert (Haccepted :
    getDomainLinkagePresentation (H := Demo.canonicalising) Demo.frozen
      Demo.credential None
    = Resolved (Demo.envelope [Demo.linked Demo.alice Demo.alice]))
    by (vm_compute; reflexivity).
  split; [exact Hissued|]. split; [exact Haccepted|].
  apply (roundtrip_other_document_uri (H := Demo.canonicalising)
           Demo.assertionSigner Demo.origin Demo.aliceKeyUri
           Demo.aliceDocument Demo.credential Demo.frozen None
           (Demo.envelope [Demo.linked Demo.alice Demo.alice])).
  - reflexivity.
  - vm_compute. discriminate.
  - exact Hissued.
  - exact Haccepted.
Defined.

(** Witness of X19: the callback built for [bob]'s document, which lists no
    key, throws when it is called. *)
Lemma assertionSigner_callback_witness :
  exists callback : FallibleSignCallback,
    assertionSigner Demo.sign Demo.bobDocument = Resolved callback
    /\ callback
         {| SignRequestData.data := Demo.coToUInt8 "0x00";
            SignRequestData.did := Some Demo.bob;
            SignRequestData.keyRelationship := "assertionMethod" |}
       = Rejected TypeError.
Proof.
  eexists. split; [reflexivity|].
  destruct (assertionSigner_callback Demo.sign Demo.bobDocument _ eq_refl)
    as [_ Hcalls].
  destruct (Hcalls
              {| SignRequestData.data := Demo.coToUInt8 "0x00";
                 SignRequestData.did := Some Demo.bob;
                 SignRequestData.keyRelationship := "assertionMethod" |})
    as [[_ Hcall]|(key & keys & Hkeys & _)].
  - exact Hcall.
  - discriminate.
Defined.

(** Witness of X20: the capability built for [alice]'s document. *)
Lemma createCredential_with_assertionSigner_witness :
  exists (key : DidKey.t) (keys : list DidKey.t),
    DidDocument.assertionMethod Demo.aliceDocument = Some (key :: keys)
    /\ ClaimerSignature.keyUri
         (ICredentialPresentation.claimerSignature Demo.credential)
       = DidDocument.uri Demo.aliceDocument +:+ DidKey.id key
    /\ ClaimerSignature.signature
         (ICredentialPresentation.claimerSignature Demo.credential)
       = Demo.sign
           (Crypto_coToUInt8 (Platform := Demo.platform)
              (ICredentialPresentation.rootHash Demo.credential)).
Proof.
  apply (createCredential_with_assertionSigner (H := Demo.platform)
           Demo.sign Demo.aliceDocument
           (fun request => Resolved (Demo.assertionSigner request))
           Demo.assertionSigner Demo.origin Demo.alice Demo.credential).
  - reflexivity.
  - intros request. reflexivity.
  - vm_compute. reflexivity.
Defined.

(** ** Errors name their cause *)

Ltac diagnose :=
  repeat split; intros;
  repeat match goal with
         | H : _ /\ _ |- _ => destruct H
         | H : exists _, _ |- _ => destruct H
         | H : _ \/ _ |- _ => destruct H
         end;
  unfold throw in *; try discriminate; try congruence;
  repeat match goal with
         | H : Rejected ?a = Rejected ?b |- _ =>
             assert (a = b) by (injection H; trivial); clear H; subst
         end;
  eauto 10.

Section Diagnostics.
Context `{Platform}.

(** X21: the error of an entry's check tells which check failed: each error
    is raised in exactly one situation, the checks being made in the order
    DID, DID syntax, issuer, origin, origin syntax, resolution, assertion
    key, signature; the malformed-claim error is never raised. *)
Theorem verifyCredential_Rejected_iff
    (didUri : DidUri) (origin : string)
    (credential : DomainLinkageCredential.t) :
  (verifyCredential didUri origin credential = Rejected DidMismatchError
   <-> CredentialSubject.id
         (DomainLinkageCredential.credentialSubject credential) <> didUri)
  /\ (verifyCredential didUri origin credential = Rejected InvalidDidError
      <-> CredentialSubject.id
            (DomainLinkageCredential.credentialSubject credential) = didUri
          /\ Did_validateUri didUri = false)
  /\ (verifyCredential didUri origin credential = Rejected IssuerMismatchError
      <-> CredentialSubject.id
            (DomainLinkageCredential.credentialSubject credential) = didUri
          /\ Did_validateUri didUri = true
          /\ DomainLinkageCredential.issuer credential <> didUri)
  /\ (verifyCredential didUri origin credential = Rejected OriginMismatchError
      <-> CredentialSubject.id
            (DomainLinkageCredential.credentialSubject credential) = didUri
          /\ Did_validateUri didUri = true
          /\ DomainLinkageCredential.issuer credential = didUri
          /\ CredentialSubject.origin
               (DomainLinkageCredential.credentialSubject credential) <> origin)
  /\ (verifyCredential didUri origin credential = Rejected InvalidOriginError
      <-> CredentialSubject.id
            (DomainLinkageCredential.credentialSubject credential) = didUri
          /\ Did_validateUri didUri = true
          /\ DomainLinkageCredential.issuer credential = didUri
          /\ CredentialSubject.origin
               (DomainLinkageCredential.credentialSubject credential) = origin
          /\ validUrl_isUri origin = false)
  /\ (verifyCredential didUri origin credential = Rejected DidResolutionError
      <-> passesEntryChecks didUri origin credential
          /\ Did_resolve didUri ≫= DidResolutionResult.document = None)
  /\ (verifyCredential didUri origin credential
        = Rejected MissingAssertionKeyError
      <-> passesEntryChecks didUri origin credential
          /\ exists document : DidDocument.t,
               Did_resolve didUri ≫= DidResolutionResult.document
                 = Some document
               /\ (DidDocument.assertionMethod document = None
                   \/ exists (key : DidKey.t) (keys : list DidKey.t),
                        DidDocument.assertionMethod document
                          = Some (key :: keys)
                        /\ truthy_string (DidKey.id key) = false))
  /\ (verifyCredential didUri origin credential = Rejected TypeError
      <-> passesEntryChecks didUri origin credential
          /\ exists document : DidDocument.t,
               Did_resolve didUri ≫= DidResolutionResult.document
                 = Some document
               /\ DidDocument.assertionMethod document = Some [])
  /\ (verifyCredential didUri origin credential
        = Rejected SignatureVerificationError
      <-> passesEntryChecks didUri origin credential
          /\ exists (document : DidDocument.t) (key : DidKey.t)
                    (keys : list DidKey.t),
               Did_resolve didUri ≫= DidResolutionResult.document
                 = Some document
               /\ DidDocument.assertionMethod document = Some (key :: keys)
               /\ truthy_string (DidKey.id key) = true
               /\ Did_verifyDidSignature "assertionMethod"
                    {| DidSignature.keyUri :=
                         SelfSignedProof.verificationMethod
                           (DomainLinkageCredential.proof credential);
                       DidSignature.signature :=
                         SelfSignedProof.signature
                           (DomainLinkageCredential.proof credential) |}
                    (Crypto_coToUInt8
                       (fromCredentialIRI
                          (DomainLinkageCredential.id credential)))
                  = false)
  /\ verifyCredential didUri origin credential <> Rejected MalformedClaimError.
Proof.
  unfold passesEntryChecks.
  destruct (decide (CredentialSubject.id
                      (DomainLinkageCredential.credentialSubject credential)
                    = didUri)) as [Hid|Hid].
  2:{ rewrite (verifyCredential_did_mismatch _ _ _ Hid).
      diagnose. }
  destruct (Did_validateUri didUri) eqn:Hvalid.
  2:{ assert (Hrun : verifyCredential didUri origin credential
                     = Rejected InvalidDidError).
      { unfold verifyCredential. rewrite Hid, String.eqb_refl, Hvalid.
        reflexivity. }
      rewrite Hrun. diagnose. }
  destruct (decide (DomainLinkageCredential.issuer credential = didUri))
    as [Hissuer|Hissuer].
  2:{ rewrite (verifyCredential_issuer_mismatch _ _ _ Hid Hvalid)
        by congruence.
      diagnose. }
  destruct (decide (CredentialSubject.origin
                      (DomainLinkageCredential.credentialSubject credential)
                    = origin)) as [Horigin|Horigin].
  2:{ assert (Hrun : verifyCredential didUri origin credential
                     = Rejected OriginMismatchError).
      { unfold verifyCredential.
        rewrite Hid, Hissuer, String.eqb_refl, Hvalid. cbn [negb].
        assert (Heqb : String.eqb origin
                  (CredentialSubject.origin
                     (DomainLinkageCredential.credentialSubject credential))
                = false) by (apply String.eqb_neq; congruence).
        rewrite Heqb. reflexivity. }
      rewrite Hrun. diagnose. }
  destruct (validUrl_isUri origin) eqn:Huri.
  2:{ assert (Hrun : verifyCredential didUri origin credential
                     = Rejected InvalidOriginError).
      { unfold verifyCredential.
        rewrite Hid, Hissuer, Horigin, !String.eqb_refl, Hvalid, Huri.
        reflexivity. }
      rewrite Hrun. diagnose. }
  rewrite verifyCredential_after_checks by (now repeat split).
  destruct (Did_resolve didUri ≫= DidResolutionResult.document)
    as [document|] eqn:Hresolve.
  2:{ diagnose. }
  unfold firstAssertionKeyId.
  destruct (DidDocument.assertionMethod document) as [[|key keys]|] eqn:Hkeys;
    cbn [lookup list_lookup mbind Settled_bind truthy_opt_string negb throw].
  - diagnose.
  - destruct (truthy_string (DidKey.id key)) eqn:Hkeyid; cbn [negb].
    + destruct (Did_verifyDidSignature _ _ _) eqn:Hsigned; cbn [negb];
        diagnose.
    + diagnose.
  - diagnose.
Qed.

End Diagnostics.

Section IssuanceDiagnostics.
Context `{Platform}.


End IssuanceDiagnostics.

Ltac assembly_diagnose :=
  repeat split; intros; unfold throw in *;
  repeat match goal with
         | H : _ /\ _ |- _ => destruct H
         | H : exists _, _ |- _ => destruct H
         | H : _ \/ _ |- _ => destruct H
         end;
  simplify_eq;
  solve [ reflexivity | congruence | eauto 6
        | exfalso;
          match goal with
          | Hnone : forall origin : string, _ <> _ |- _ =>
              eapply Hnone; reflexivity
          end
        | left; intros ?; congruence
        | right; eauto 6 ].

Section AssemblyDiagnostics.
Context `{Platform}.

(** X23: for a presentation whose claim has a non-empty owner, assembly
    fails in three ways only, each with one cause, tested in this order: the
    owner is not a valid DID; [origin] is missing, not a string or not a
    valid URL; the claimer signature is not accepted by the verification
    primitive.  The malformed-claim error cannot occur. *)
Theorem getDomainLinkagePresentation_Rejected_iff
    (clock : Clock) (credential : ICredentialPresentation.t)
    (expirationDate : option string) (didUri : DidUri) :
  Claim.owner (ICredentialPresentation.claim credential) = Some didUri ->
  truthy_string didUri = true ->
  (getDomainLinkagePresentation clock credential expirationDate
     = Rejected InvalidDidError
   <-> Did_validateUri didUri = false)
  /\ (getDomainLinkagePresentation clock credential expirationDate
        = Rejected InvalidOriginError
      <-> Did_validateUri didUri = true
          /\ ((forall origin : string,
                 Claim.contents (ICredentialPresentation.claim credential)
                   !! "origin" <> Some (VString origin))
              \/ exists origin : string,
                   Claim.contents (ICredentialPresentation.claim credential)
                     !! "origin" = Some (VString origin)
                   /\ validUrl_isUri origin = false))
  /\ (getDomainLinkagePresentation clock credential expirationDate
        = Rejected SignatureVerificationError
      <-> Did_validateUri didUri = true
          /\ exists origin : string,
               Claim.contents (ICredentialPresentation.claim credential)
                 !! "origin" = Some (VString origin)
               /\ validUrl_isUri origin = true
               /\ Did_verifyDidSignature "assertionMethod"
                    {| DidSignature.keyUri :=
                         ClaimerSignature.keyUri
                           (ICredentialPresentation.claimerSignature credential);
                       DidSignature.signature :=
                         ClaimerSignature.signature
                           (ICredentialPresentation.claimerSignature credential)
                    |}
                    (Crypto_coToUInt8
                       (ICredentialPresentation.rootHash credential))
                  = false)
  /\ forall e : Error,
       getDomainLinkagePresentation clock credential expirationDate
         = Rejected e ->
       e = InvalidDidError \/ e = InvalidOriginError
       \/ e = SignatureVerificationError.
Proof.
  intros Howner Hdid.
  unfold getDomainLinkagePresentation.
  destruct (defaultExpirationDate clock expirationDate) as [expiration reads].
  rewrite Howner. cbn [truthy_opt_string validateOwner]. rewrite Hdid.
  cbn [negb andb].
  destruct (Did_validateUri didUri) eqn:Hvalid;
    cbn [mbind Settled_bind throw]; [|diagnose].
  destruct (Claim.contents _ !! "origin") as [[origin| | |]|] eqn:Horigin;
    try (destruct (validUrl_isUri origin) eqn:Huri; cbn [negb]);
    try (destruct (Did_verifyDidSignature _ _ _) eqn:Hsigned; cbn [negb]);
    assembly_diagnose.
Qed.

End AssemblyDiagnostics.

(** Witness of X23: a claim owned by [alice] without [origin]. *)
Lemma getDomainLinkagePresentation_Rejected_iff_witness :
  getDomainLinkagePresentation (H := Demo.platform) Demo.frozen
    Demo.credentialWithoutOrigin None = Rejected InvalidOriginError.
Proof.
  destruct (getDomainLinkagePresentation_Rejected_iff (H := Demo.platform)
              Demo.frozen Demo.credentialWithoutOrigin None Demo.alice
              eq_refl eq_refl) as (_ & Horigin & _).
  apply Horigin. split; [reflexivity|].
  left. intros origin. vm_compute. discriminate.
Defined.
